(** * Porta.Pty native shim: a model of [porta_pty.c]

    The file [src/Porta.Pty.Native/porta_pty.c] wraps [forkpty] and [execvp]
    so that no managed code runs between the fork and the exec.  Its functions
    are sequences of libc calls; the model below keeps that shape.

    - The two argument structs and the result struct are records with the
      field names of the source.  [struct termios] and [struct winsize] come
      from the system headers and live in module [Sys].
    - A process is a record [proc]: its environment (a finite map from names
      to values), its working directory, [errno], the attributes of its
      controlling terminal, the window sizes behind its open terminal
      descriptors, and the log of libc calls it has made.
    - libc calls are primitives of a small monad [M]: a computation takes a
      process state and either yields a value or stops the process image
      ([_exit], or a successful [execvp]).
    - What the operating system answers (does [forkpty] fail, which side of
      the fork are we on, does [chdir] fail, does [execvp] fail) is read from
      a [world]; what depends on the C library (the size of [c_cc], the two
      speed setters, the attributes of a fresh pseudo-terminal) from a
      [platform].
    - The integer members of the structs are carried as [Z]: the source
      copies them and never computes with them, so no wrap-around arises. *)

From Stdlib Require Import ZArith String Ascii List Lia.
From stdpp Require Import gmap strings list.

Local Open Scope string_scope.
Local Open Scope list_scope.
Local Open Scope Z_scope.

(** ** Structures of the source *)

(** [pty_termios_t]: four flag words, 32 control characters, two speeds. *)
Record pty_termios_t := {
  c_iflag : Z;
  c_oflag : Z;
  c_cflag : Z;
  c_lflag : Z;
  c_cc : list Z;
  c_ispeed : Z;
  c_ospeed : Z
}.

(** [pty_winsize_t]: four unsigned shorts. *)
Record pty_winsize_t := {
  ws_row : Z;
  ws_col : Z;
  ws_xpixel : Z;
  ws_ypixel : Z
}.

(** [pty_spawn_result_t]. *)
Record pty_spawn_result_t := {
  master_fd : Z;
  pid : Z;
  error : Z
}.

(** The array bound written in the declaration [unsigned char c_cc[32]]. *)
Definition PTY_CC_LEN : nat := 32.

(** ** Structures of the system headers *)

Module Sys.

(** [struct termios].  [c_line] is the line-discipline byte of the Linux
    layout; it stands here for every member the source never assigns. *)
Record termios := {
  c_iflag : Z;
  c_oflag : Z;
  c_cflag : Z;
  c_lflag : Z;
  c_line : Z;
  c_cc : list Z;
  c_ispeed : Z;
  c_ospeed : Z
}.

(** [struct winsize]. *)
Record winsize := {
  ws_row : Z;
  ws_col : Z;
  ws_xpixel : Z;
  ws_ypixel : Z
}.

Definition set_c_iflag (v : Z) (t : termios) : termios :=
  {| c_iflag := v; c_oflag := c_oflag t; c_cflag := c_cflag t;
     c_lflag := c_lflag t; c_line := c_line t; c_cc := c_cc t;
     c_ispeed := c_ispeed t; c_ospeed := c_ospeed t |}.

Definition set_c_oflag (v : Z) (t : termios) : termios :=
  {| c_iflag := c_iflag t; c_oflag := v; c_cflag := c_cflag t;
     c_lflag := c_lflag t; c_line := c_line t; c_cc := c_cc t;
     c_ispeed := c_ispeed t; c_ospeed := c_ospeed t |}.

Definition set_c_cflag (v : Z) (t : termios) : termios :=
  {| c_iflag := c_iflag t; c_oflag := c_oflag t; c_cflag := v;
     c_lflag := c_lflag t; c_line := c_line t; c_cc := c_cc t;
     c_ispeed := c_ispeed t; c_ospeed := c_ospeed t |}.

Definition set_c_lflag (v : Z) (t : termios) : termios :=
  {| c_iflag := c_iflag t; c_oflag := c_oflag t; c_cflag := c_cflag t;
     c_lflag := v; c_line := c_line t; c_cc := c_cc t;
     c_ispeed := c_ispeed t; c_ospeed := c_ospeed t |}.

Definition set_c_cc (v : list Z) (t : termios) : termios :=
  {| c_iflag := c_iflag t; c_oflag := c_oflag t; c_cflag := c_cflag t;
     c_lflag := c_lflag t; c_line := c_line t; c_cc := v;
     c_ispeed := c_ispeed t; c_ospeed := c_ospeed t |}.

Definition set_c_ispeed (v : Z) (t : termios) : termios :=
  {| c_iflag := c_iflag t; c_oflag := c_oflag t; c_cflag := c_cflag t;
     c_lflag := c_lflag t; c_line := c_line t; c_cc := c_cc t;
     c_ispeed := v; c_ospeed := c_ospeed t |}.

Definition set_c_ospeed (v : Z) (t : termios) : termios :=
  {| c_iflag := c_iflag t; c_oflag := c_oflag t; c_cflag := c_cflag t;
     c_lflag := c_lflag t; c_line := c_line t; c_cc := c_cc t;
     c_ispeed := c_ispeed t; c_ospeed := v |}.

End Sys.

(** What the C library of the target fixes. *)
Record platform := {
  (** [NCCS], so that [sizeof(term.c_cc) = NCCS] (a [cc_t] is one byte). *)
  NCCS : nat;
  (** [cfsetispeed] and [cfsetospeed] as functions on the structure they are
      handed; the source discards their [int] result. *)
  cfsetispeed : Sys.termios -> Z -> Sys.termios;
  cfsetospeed : Sys.termios -> Z -> Sys.termios;
  (** Attributes and size the driver gives a pseudo-terminal when [forkpty]
      receives NULL for them. *)
  pty_default_termios : Sys.termios;
  pty_default_winsize : Sys.winsize
}.

(** ** [memset] and [memcpy] on the control-character array *)

(** [memset(&term, 0, sizeof(term))]: every member zero, [c_cc] being [n]
    zero bytes. *)
Definition memset_termios (n : nat) : Sys.termios :=
  {| Sys.c_iflag := 0; Sys.c_oflag := 0; Sys.c_cflag := 0; Sys.c_lflag := 0;
     Sys.c_line := 0; Sys.c_cc := replicate n 0;
     Sys.c_ispeed := 0; Sys.c_ospeed := 0 |}.

(** [memcpy(dst, src, n)] on byte arrays: the first [n] cells of [dst] are
    replaced by the first [n] cells of [src], the rest of [dst] stays.  The
    source calls it with [n] no larger than either array. *)
Definition memcpy (dst src : list Z) (n : nat) : list Z :=
  take n src ++ drop n dst.

(** The block [if (termios_settings != NULL) { ... }] of [pty_spawn], lines
    101-117: the value of [term] when [term_ptr = &term]. *)
Definition translate_termios (P : platform) (s : pty_termios_t) : Sys.termios :=
  let term := memset_termios (NCCS P) in
  let term := Sys.set_c_iflag (c_iflag s) term in
  let term := Sys.set_c_oflag (c_oflag s) term in
  let term := Sys.set_c_cflag (c_cflag s) term in
  let term := Sys.set_c_lflag (c_lflag s) term in
  let cc_size := NCCS P in
  let cc_size := if (32 <? cc_size)%nat then 32%nat else cc_size in
  let term := Sys.set_c_cc (memcpy (Sys.c_cc term) (c_cc s) cc_size) term in
  let term := cfsetispeed P term (c_ispeed s) in
  let term := cfsetospeed P term (c_ospeed s) in
  term.

(** The block [if (winsize_settings != NULL) { ... }], lines 123-129. *)
Definition translate_winsize (s : pty_winsize_t) : Sys.winsize :=
  {| Sys.ws_row := ws_row s; Sys.ws_col := ws_col s;
     Sys.ws_xpixel := ws_xpixel s; Sys.ws_ypixel := ws_ypixel s |}.

(** ** C strings *)

(** [strchr(s, c)] as the offset of the first [c] in [s]; [None] is the NULL
    result. *)
Fixpoint strchr (s : string) (c : ascii) : option nat :=
  match s with
  | EmptyString => None
  | String a s' =>
      if Ascii.eqb a c then Some 0%nat
      else match strchr s' c with
           | Some n => Some (S n)
           | None => None
           end
  end.

(** The first [n] bytes of [s]: what [memcpy(key, s, n); key[n] = 0] leaves
    in [key]. *)
Fixpoint str_take (n : nat) (s : string) : string :=
  match n, s with
  | S n', String a s' => String a (str_take n' s')
  | _, _ => EmptyString
  end.

(** The string at [s + n]. *)
Fixpoint str_drop (n : nat) (s : string) : string :=
  match n, s with
  | S n', String _ s' => str_drop n' s'
  | _, _ => s
  end.

(** [s[0] == 0]. *)
Definition str_null (s : string) : bool :=
  match s with
  | EmptyString => true
  | String _ _ => false
  end.

(** ** Processes and the operating system *)

(** The libc calls of the source, with their arguments. *)
Inductive call :=
| Cforkpty (termp : option Sys.termios) (winp : option Sys.winsize)
| Cchdir (path : string)
| Cgetenv (name : string)
| Csetenv (name value : string) (overwrite : Z)
| Cunsetenv (name : string)
| Cexecvp (file : string) (argv : list string)
| C_exit (status : Z)
| Cioctl_TIOCSWINSZ (fd : Z) (ws : Sys.winsize).

Record proc := {
  environ : gmap string string;
  cwd : string;
  errno : Z;
  (** attributes and size of the controlling terminal, if there is one *)
  ctty : option (Sys.termios * Sys.winsize);
  (** window size of the terminal behind each open terminal descriptor *)
  ttys : gmap Z Sys.winsize;
  (** calls made so far, oldest first *)
  calls : list call
}.

Definition set_environ (v : gmap string string) (p : proc) : proc :=
  {| environ := v; cwd := cwd p; errno := errno p; ctty := ctty p;
     ttys := ttys p; calls := calls p |}.

Definition set_cwd (v : string) (p : proc) : proc :=
  {| environ := environ p; cwd := v; errno := errno p; ctty := ctty p;
     ttys := ttys p; calls := calls p |}.

Definition set_errno (v : Z) (p : proc) : proc :=
  {| environ := environ p; cwd := cwd p; errno := v; ctty := ctty p;
     ttys := ttys p; calls := calls p |}.

Definition set_ctty (v : option (Sys.termios * Sys.winsize)) (p : proc) : proc :=
  {| environ := environ p; cwd := cwd p; errno := errno p; ctty := v;
     ttys := ttys p; calls := calls p |}.

Definition set_ttys (v : gmap Z Sys.winsize) (p : proc) : proc :=
  {| environ := environ p; cwd := cwd p; errno := errno p; ctty := ctty p;
     ttys := v; calls := calls p |}.

Definition log (c : call) (p : proc) : proc :=
  {| environ := environ p; cwd := cwd p; errno := errno p; ctty := ctty p;
     ttys := ttys p; calls := calls p ++ [c] |}.

(** The three ways [forkpty] comes back. *)
Inductive fork_outcome :=
| ForkFailed (e : Z)                  (* -1, [errno = e], no child exists *)
| ForkParent (child : Z) (amaster : Z) (* the child's pid, [*amaster] stored *)
| ForkChild.                          (* 0, in the new process *)

(** What [forkpty] promises: a failure sets [errno] (to a value that is never
    0), the parent sees a positive pid and a descriptor that is not negative. *)
Definition forkpty_contract (o : fork_outcome) : Prop :=
  match o with
  | ForkFailed e => e <> 0
  | ForkParent child amaster => 0 < child /\ 0 <= amaster
  | ForkChild => True
  end.

(** The answers of the operating system during one run. *)
Record world := {
  w_forkpty : fork_outcome;
  (** [Some e]: [chdir] to that path fails with [errno = e] *)
  w_chdir : string -> option Z;
  (** [Some e]: [execvp] fails with [errno = e]; [None]: the image is replaced *)
  w_execvp : string -> list string -> option Z;
  (** [errno] of an [ioctl] on a descriptor that is not an open terminal *)
  w_ioctl_errno : Z -> Z
}.

Definition EINVAL : Z := 22.

(** ** The monad of libc calls *)

(** How a process image ends inside a computation. *)
Inductive halt :=
| Exited (status : Z)
| Replaced (file : string) (argv : list string).

Inductive res (A : Type) :=
| Val (a : A)
| Halt (h : halt).
Arguments Val {A} a.
Arguments Halt {A} h.

Definition M (A : Type) : Type := proc -> res A * proc.

Definition ret {A} (a : A) : M A := fun p => (Val a, p).

Definition bind {A B} (m : M A) (k : A -> M B) : M B :=
  fun p => match m p with
           | (Val a, p') => k a p'
           | (Halt h, p') => (Halt h, p')
           end.

Declare Scope libc_scope.
Delimit Scope libc_scope with libc.
Notation "x <- m ;; k" := (bind m (fun x => k))
  (at level 100, m at next level, right associativity) : libc_scope.
Notation "m ;;; k" := (bind m (fun _ => k))
  (at level 100, right associativity) : libc_scope.

(** ** libc primitives *)

(** A name [setenv] and [unsetenv] accept: not empty, no ['=']. *)
Definition valid_name (name : string) : bool :=
  negb (str_null name) && negb (bool_decide (is_Some (strchr name "="%char))).

Definition get_errno : M Z := fun p => (Val (errno p), p).

(** [getenv(name)]: the value, [None] for NULL. *)
Definition getenv (name : string) : M (option string) :=
  fun p => (Val (environ p !! name), log (Cgetenv name) p).

(** [setenv(name, value, overwrite)]: 0, or -1 with [EINVAL] for a name it
    does not accept. *)
Definition setenv (name value : string) (overwrite : Z) : M Z :=
  fun p =>
    let p := log (Csetenv name value overwrite) p in
    if valid_name name then
      match environ p !! name with
      | Some _ =>
          if overwrite =? 0 then (Val 0, p)
          else (Val 0, set_environ (<[name := value]> (environ p)) p)
      | None => (Val 0, set_environ (<[name := value]> (environ p)) p)
      end
    else (Val (-1), set_errno EINVAL p).

(** [unsetenv(name)]. *)
Definition unsetenv (name : string) : M Z :=
  fun p =>
    let p := log (Cunsetenv name) p in
    if valid_name name then (Val 0, set_environ (delete name (environ p)) p)
    else (Val (-1), set_errno EINVAL p).

Section Libc.

Context (P : platform) (W : world).

(** [forkpty(&master_fd, NULL, termp, winp)], given the current value of
    [master_fd]; yields the returned pid and the value of [master_fd]
    afterwards.  In the child the slave, configured from [termp] and [winp],
    is the controlling terminal; in the parent the master is a new open
    terminal descriptor. *)
Definition forkpty (master_fd : Z) (termp : option Sys.termios)
    (winp : option Sys.winsize) : M (Z * Z) :=
  fun p =>
    let p := log (Cforkpty termp winp) p in
    let attr := default (pty_default_termios P) termp in
    let size := default (pty_default_winsize P) winp in
    match w_forkpty W with
    | ForkFailed e => (Val (-1, master_fd), set_errno e p)
    | ForkParent child amaster =>
        (Val (child, amaster), set_ttys (<[amaster := size]> (ttys p)) p)
    | ForkChild => (Val (0, master_fd), set_ctty (Some (attr, size)) p)
    end.

(** The pid [forkpty] hands back in this world. *)
Definition forkpty_ret : Z :=
  match w_forkpty W with
  | ForkFailed _ => -1
  | ForkParent child _ => child
  | ForkChild => 0
  end.

(** [chdir(path)]. *)
Definition chdir (path : string) : M Z :=
  fun p =>
    let p := log (Cchdir path) p in
    match w_chdir W path with
    | Some e => (Val (-1), set_errno e p)
    | None => (Val 0, set_cwd path p)
    end.

(** [execvp(file, argv)]: comes back only when it fails. *)
Definition execvp (file : string) (argv : list string) : M Z :=
  fun p =>
    let p := log (Cexecvp file argv) p in
    match w_execvp W file argv with
    | Some e => (Val (-1), set_errno e p)
    | None => (Halt (Replaced file argv), p)
    end.

(** [_exit(status)]: never comes back. *)
Definition _exit {A} (status : Z) : M A :=
  fun p => (Halt (Exited status), log (C_exit status) p).

(** [ioctl(fd, TIOCSWINSZ, &ws)]. *)
Definition ioctl_TIOCSWINSZ (fd : Z) (ws : Sys.winsize) : M Z :=
  fun p =>
    let p := log (Cioctl_TIOCSWINSZ fd ws) p in
    match ttys p !! fd with
    | Some _ => (Val 0, set_ttys (<[fd := ws]> (ttys p)) p)
    | None => (Val (-1), set_errno (w_ioctl_errno W fd) p)
    end.

End Libc.

Local Open Scope libc_scope.

(** ** [pty_spawn] *)

(** The body of the loop [for (i = 0; envp[i] != NULL; i++)], lines 162-178,
    for the entry [envp[i]]. *)
Definition apply_entry (entry : string) : M unit :=
  match strchr entry "="%char with
  | Some eq =>
      let key_len := eq in
      let key := str_take key_len entry in
      let value := str_drop (eq + 1) entry in
      if str_null value then
        unsetenv key ;;; ret tt
      else
        setenv key value 1 ;;; ret tt
  | None => ret tt
  end.

(** The loop itself, over the entries before the terminating NULL. *)
Fixpoint apply_envp (envp : list string) : M unit :=
  match envp with
  | [] => ret tt
  | entry :: rest => apply_entry entry ;;; apply_envp rest
  end.

Definition set_error (e : Z) (r : pty_spawn_result_t) : pty_spawn_result_t :=
  {| master_fd := master_fd r; pid := pid r; error := e |}.

Section Spawn.

Context (P : platform) (W : world).

(** Lines 147-152, "Change working directory if specified". *)
Definition child_chdir (working_dir : option string) : M unit :=
  match working_dir with
  | Some dir =>
      if negb (str_null dir) then
        rc <- chdir W dir ;;
        if rc =? -1 then e <- get_errno ;; _exit e else ret tt
      else ret tt
  | None => ret tt
  end.

(** Lines 154-157, "Set TERM environment variable if not already set". *)
Definition child_default_term : M unit :=
  term <- getenv "TERM" ;;
  match term with
  | None => setenv "TERM" "xterm-256color" 0 ;;; ret tt
  | Some _ => ret tt
  end.

(** Lines 159-180, "Apply custom environment variables if provided". *)
Definition child_envp (envp : option (list string)) : M unit :=
  match envp with
  | Some entries => apply_envp entries
  | None => ret tt
  end.

(** Everything the child does before it reaches [execvp]. *)
Definition child_setup (envp : option (list string))
    (working_dir : option string) : M unit :=
  child_chdir working_dir ;;;
  child_default_term ;;;
  child_envp envp.

(** Lines 182-186, "Execute the program". *)
Definition child_exec {A} (file : string) (argv : list string) : M A :=
  execvp W file argv ;;;
  e <- get_errno ;;
  _exit e.

(** Lines 141-187: what the new process does once [forkpty] has returned 0.
    No path through it yields a value. *)
Definition child (file : string) (argv : list string)
    (envp : option (list string)) (working_dir : option string)
    : M pty_spawn_result_t :=
  child_setup envp working_dir ;;;
  child_exec file argv.

(** [pty_spawn], lines 87-195.  A NULL pointer argument is [None]. *)
Definition pty_spawn (file : string) (argv : list string)
    (envp : option (list string)) (working_dir : option string)
    (termios_settings : option pty_termios_t)
    (winsize_settings : option pty_winsize_t) : M pty_spawn_result_t :=
  let result := {| master_fd := -1; pid := -1; error := 0 |} in
  let term_ptr :=
    match termios_settings with
    | Some s => Some (translate_termios P s)
    | None => None
    end in
  let ws_ptr :=
    match winsize_settings with
    | Some s => Some (translate_winsize s)
    | None => None
    end in
  r <- forkpty P W (-1) term_ptr ws_ptr ;;
  let pid := fst r in
  let master_fd := snd r in
  if pid =? -1 then
    e <- get_errno ;;
    ret (set_error e result)
  else if pid =? 0 then
    child file argv envp working_dir
  else
    ret {| master_fd := master_fd; pid := pid; error := 0 |}.

(** ** [pty_resize], lines 208-217 *)
Definition pty_resize (master_fd rows cols : Z) : M Z :=
  let ws := {| Sys.ws_row := rows; Sys.ws_col := cols;
               Sys.ws_xpixel := 0; Sys.ws_ypixel := 0 |} in
  ioctl_TIOCSWINSZ W master_fd ws.

End Spawn.

(** ** A concrete platform and concrete worlds, for evaluation *)

(** Speed setters that store the speed in its member and touch nothing else
    (the BSD and macOS ones). *)
Definition bsd_platform (nccs : nat) : platform :=
  {| NCCS := nccs;
     cfsetispeed := fun t s => Sys.set_c_ispeed s t;
     cfsetospeed := fun t s => Sys.set_c_ospeed s t;
     pty_default_termios :=
       {| Sys.c_iflag := 11010; Sys.c_oflag := 3; Sys.c_cflag := 19200;
          Sys.c_lflag := 1483; Sys.c_line := 7; Sys.c_cc := replicate nccs 255;
          Sys.c_ispeed := 9600; Sys.c_ospeed := 9600 |};
     pty_default_winsize :=
       {| Sys.ws_row := 24; Sys.ws_col := 80;
          Sys.ws_xpixel := 0; Sys.ws_ypixel := 0 |} |}.

Definition world_of (o : fork_outcome) (cd : option Z) (ex : option Z) : world :=
  {| w_forkpty := o;
     w_chdir := fun _ => cd;
     w_execvp := fun _ _ => ex;
     w_ioctl_errno := fun _ => 9 |}.

Definition proc0 (env : gmap string string) : proc :=
  {| environ := env; cwd := "/"; errno := 0; ctty := None;
     ttys := ∅; calls := [] |}.

Definition sample_termios : pty_termios_t :=
  {| c_iflag := 17664; c_oflag := 5; c_cflag := 191; c_lflag := 35387;
     c_cc := map Z.of_nat (seq 1 32); c_ispeed := 15; c_ospeed := 15 |}.

Definition sample_winsize : pty_winsize_t :=
  {| ws_row := 40; ws_col := 132; ws_xpixel := 0; ws_ypixel := 0 |}.

(** Speed setters in the manner of the Linux C library: besides storing the
    speed they fold its code into the [CBAUD] bits of [c_cflag], and the input
    setter keeps the [IBAUD0] bit of [c_iflag] in step; a speed that is no
    valid code changes nothing. *)
Definition CBAUD : Z := 4111.
Definition IBAUD0 : Z := 2147483648.

Definition linux_speed_ok (speed : Z) : bool :=
  Z.land speed (Z.lnot CBAUD) =? 0.

Definition linux_cfsetospeed (t : Sys.termios) (speed : Z) : Sys.termios :=
  if linux_speed_ok speed then
    Sys.set_c_cflag
      (Z.lor (Z.land (Sys.c_cflag t) (Z.land (Z.lnot CBAUD) 4294967295)) speed)
      (Sys.set_c_ospeed speed t)
  else t.

Definition linux_cfsetispeed (t : Sys.termios) (speed : Z) : Sys.termios :=
  if linux_speed_ok speed then
    let t := Sys.set_c_ispeed speed t in
    if speed =? 0 then Sys.set_c_iflag (Z.lor (Sys.c_iflag t) IBAUD0) t
    else
      Sys.set_c_cflag
        (Z.lor (Z.land (Sys.c_cflag t) (Z.land (Z.lnot CBAUD) 4294967295)) speed)
        (Sys.set_c_iflag
           (Z.land (Sys.c_iflag t) (Z.land (Z.lnot IBAUD0) 4294967295)) t)
  else t.

Definition linux_platform : platform :=
  {| NCCS := 32;
     cfsetispeed := linux_cfsetispeed;
     cfsetospeed := linux_cfsetospeed;
     pty_default_termios := pty_default_termios (bsd_platform 32);
     pty_default_winsize := pty_default_winsize (bsd_platform 32) |}.

(** ** Vocabulary of the specification *)

(** An entry split on its first ['=']: the text before it and the text after
    it.  Written by recursion on the entry, without offsets. *)
Fixpoint split_first_eq (entry : string) : option (string * string) :=
  match entry with
  | EmptyString => None
  | String a rest =>
      if Ascii.eqb a "="%char then Some (EmptyString, rest)
      else match split_first_eq rest with
           | Some (k, v) => Some (String a k, v)
           | None => None
           end
  end.

(** What an entry asks for, in the words of the specification: an empty
    value removes the key, any other value sets it. *)
Inductive override :=
| Unset_key (key : string)
| Set_key (key value : string).

Definition override_of (entry : string) : option override :=
  match split_first_eq entry with
  | Some (k, v) => Some (if str_null v then Unset_key k else Set_key k v)
  | None => None
  end.

Definition override_key (o : override) : string :=
  match o with
  | Unset_key k => k
  | Set_key k _ => k
  end.

(** The libc call that carries out an override. *)
Definition override_call (o : override) : call :=
  match o with
  | Unset_key k => Cunsetenv k
  | Set_key k v => Csetenv k v 1
  end.

(** The value of [key] after the overrides of [entries], applied in list
    order to a variable whose value was [init]: the last entry for [key]
    decides. *)
Definition final_binding (key : string) (entries : list string)
    (init : option string) : option string :=
  fold_left
    (fun acc entry =>
       match override_of entry with
       | Some (Unset_key k) => if String.eqb k key then None else acc
       | Some (Set_key k v) => if String.eqb k key then Some v else acc
       | None => acc
       end)
    entries init.

(** The calls the overrides of [entries] amount to, in list order; an entry
    that asks for nothing contributes none. *)
Definition envp_calls (entries : list string) : list call :=
  omap (fun entry => option_map override_call (override_of entry)) entries.

(** Carrying out an override. *)
Definition do_override (o : override) : M Z :=
  match o with
  | Unset_key k => unsetenv k
  | Set_key k v => setenv k v 1
  end.

(** The directory the child is asked to enter, if any: the argument is
    neither NULL nor the empty string. *)
Definition chdir_request (working_dir : option string) : option string :=
  match working_dir with
  | Some dir => if str_null dir then None else Some dir
  | None => None
  end.

(** The error of the requested [chdir] in a world, if it fails there. *)
Definition chdir_error (W : world) (working_dir : option string) : option Z :=
  match chdir_request working_dir with
  | Some dir => w_chdir W dir
  | None => None
  end.

(** The calls of the TERM step on an environment. *)
Definition default_term_calls (env : gmap string string) : list call :=
  Cgetenv "TERM" ::
  match env !! "TERM" with
  | Some _ => []
  | None => [Csetenv "TERM" "xterm-256color" 0]
  end.

(** The calls of the working-directory step. *)
Definition chdir_calls (working_dir : option string) : list call :=
  match chdir_request working_dir with
  | Some dir => [Cchdir dir]
  | None => []
  end.

(** The calls of the override step. *)
Definition child_envp_calls (envp : option (list string)) : list call :=
  match envp with
  | Some entries => envp_calls entries
  | None => []
  end.

(** Calls that configure the process: terminal attributes and window size
    (at [forkpty]), working directory, environment. *)
Definition is_config (c : call) : bool :=
  match c with
  | Cforkpty _ _ | Cchdir _ | Csetenv _ _ _ | Cunsetenv _ => true
  | _ => false
  end.

(** Calls that change the environment or the working directory. *)
Definition is_env_or_cwd (c : call) : bool :=
  match c with
  | Cchdir _ | Csetenv _ _ _ | Cunsetenv _ => true
  | _ => false
  end.

Definition is_execvp (c : call) : bool :=
  match c with
  | Cexecvp _ _ => true
  | _ => false
  end.

(** The two shapes of a result, as the specification names them. *)
Definition spawn_success (r : pty_spawn_result_t) : Prop :=
  0 <= pid r /\ 0 <= master_fd r /\ error r = 0.

Definition spawn_failure (r : pty_spawn_result_t) : Prop :=
  master_fd r = -1 /\ pid r = -1 /\ error r <> 0.

(** The calls a run added to the log. *)
Definition calls_since (before after : proc) : list call :=
  skipn (length (calls before)) (calls after).

(** [NULL] or a pointer to the translated structure, as lines 99-117 and
    121-129 leave [term_ptr] and [ws_ptr]. *)
Definition term_ptr_of (P : platform) (s : option pty_termios_t)
    : option Sys.termios :=
  match s with
  | Some s => Some (translate_termios P s)
  | None => None
  end.

Definition ws_ptr_of (s : option pty_winsize_t) : option Sys.winsize :=
  match s with
  | Some s => Some (translate_winsize s)
  | None => None
  end.

(** The smaller of the two capacities of the control-character arrays. *)
Definition cc_copied (P : platform) : nat := Nat.min PTY_CC_LEN (NCCS P).

(** The translation as the specification words it, up to the speed setters:
    the four flag words as they are, the first [cc_copied] control characters,
    zero everywhere else. *)
Definition term_before_speeds (P : platform) (s : pty_termios_t) : Sys.termios :=
  {| Sys.c_iflag := c_iflag s; Sys.c_oflag := c_oflag s;
     Sys.c_cflag := c_cflag s; Sys.c_lflag := c_lflag s;
     Sys.c_line := 0;
     Sys.c_cc := take (cc_copied P) (c_cc s)
                   ++ replicate (NCCS P - cc_copied P) 0;
     Sys.c_ispeed := 0; Sys.c_ospeed := 0 |}.

(** The speed setters leave alone what is neither a flag word nor a speed. *)
Definition setters_keep_rest (P : platform) : Prop :=
  forall t v,
    Sys.c_line (cfsetispeed P t v) = Sys.c_line t /\
    Sys.c_cc (cfsetispeed P t v) = Sys.c_cc t /\
    Sys.c_line (cfsetospeed P t v) = Sys.c_line t /\
    Sys.c_cc (cfsetospeed P t v) = Sys.c_cc t.

(** ** [pty_get_errno], lines 271-274 *)
Definition pty_get_errno : M Z := get_errno.

(** Speed setters that store the speed in its member and do nothing else. *)
Definition setters_store_speed (P : platform) : Prop :=
  forall t v,
    cfsetispeed P t v = Sys.set_c_ispeed v t /\
    cfsetospeed P t v = Sys.set_c_ospeed v t.

(** The entry asks nothing about [key]. *)
Definition entry_spares (key : string) (entry : string) : Prop :=
  forall o, override_of entry = Some o -> override_key o <> key.


(** * Properties *)

(** ** C strings *)

Lemma strchr_split (s : string) (n : nat) :
  strchr s "="%char = Some n ->
  split_first_eq s = Some (str_take n s, str_drop (n + 1) s).
Proof.
  revert n. induction s as [|a s IH]; intros n; simpl; [discriminate|].
  destruct (Ascii.eqb a "=") eqn:Ha.
  - intros [= <-]. reflexivity.
  - destruct (strchr s "=") as [m|]; [|discriminate].
    intros [= <-]. rewrite (IH m eq_refl). reflexivity.
Qed.

Lemma strchr_none_split (s : string) :
  strchr s "="%char = None -> split_first_eq s = None.
Proof.
  induction s as [|a s IH]; simpl; [reflexivity|].
  destruct (Ascii.eqb a "="); [discriminate|].
  destruct (strchr s "="); [discriminate|].
  intros _. rewrite IH; reflexivity.
Qed.

Lemma split_first_eq_join (s k v : string) :
  split_first_eq s = Some (k, v) ->
  s = k +:+ String "="%char v /\ strchr k "="%char = None.
Proof.
  revert k. induction s as [|a s IH]; intros k; simpl; [discriminate|].
  destruct (Ascii.eqb a "=") eqn:Ha.
  - intros [= <- <-]. apply Ascii.eqb_eq in Ha. subst a. split; reflexivity.
  - destruct (split_first_eq s) as [[k' v']|]; [|discriminate].
    intros [= <- <-]. destruct (IH k' eq_refl) as [-> Hk].
    split; [reflexivity|]. simpl. rewrite Ha, Hk. reflexivity.
Qed.

Lemma split_first_eq_of_join (k v : string) :
  strchr k "="%char = None ->
  split_first_eq (k +:+ String "="%char v) = Some (k, v).
Proof.
  induction k as [|a k IH]; simpl; [reflexivity|].
  destruct (Ascii.eqb a "="); [discriminate|].
  destruct (strchr k "="); [discriminate|].
  intros _. rewrite IH; reflexivity.
Qed.

Lemma str_null_spec (s : string) : str_null s = true <-> s = "".
Proof. destruct s; simpl; split; congruence. Qed.

Lemma valid_name_spec (name : string) :
  valid_name name = true <-> name <> "" /\ strchr name "="%char = None.
Proof.
  unfold valid_name. rewrite andb_true_iff, !negb_true_iff.
  rewrite bool_decide_eq_false. destruct name as [|a name]; simpl.
  - split; [intros [? _]; discriminate | intros [? _]; congruence].
  - split.
    + intros [_ H]. split; [discriminate|].
      destruct (if Ascii.eqb a "=" then _ else _); [|reflexivity].
      exfalso. apply H. eauto.
    + intros [_ H]. split; [reflexivity|]. rewrite H. intros [? ?]; discriminate.
Qed.

(** ** The environment loop *)

Lemma apply_entry_override (entry : string) (st : proc) :
  apply_entry entry st =
  match override_of entry with
  | Some o => (Val tt, snd (do_override o st))
  | None => (Val tt, st)
  end.
Proof.
  unfold apply_entry, override_of.
  destruct (strchr entry "=") as [n|] eqn:Hn.
  - rewrite (strchr_split _ _ Hn).
    destruct (str_null (str_drop (n + 1) entry)); simpl; unfold bind, ret.
    + unfold unsetenv. destruct (valid_name _); reflexivity.
    + unfold setenv. cbn [environ log]. destruct (valid_name _); [|reflexivity].
      destruct (_ !! _); reflexivity.
  - rewrite (strchr_none_split _ Hn). reflexivity.
Qed.

Lemma override_key_no_eq (entry : string) (o : override) :
  override_of entry = Some o -> strchr (override_key o) "="%char = None.
Proof.
  unfold override_of. destruct (split_first_eq entry) as [[k v]|] eqn:Hs; [|discriminate].
  apply split_first_eq_join in Hs as [_ Hk].
  intros [= <-]. destruct (str_null v); exact Hk.
Qed.

Lemma do_override_calls (o : override) (st : proc) :
  calls (snd (do_override o st)) = calls st ++ [override_call o].
Proof.
  destruct o as [k|k v]; simpl; [unfold unsetenv|unfold setenv]; cbn [environ log];
    destruct (valid_name k); try destruct (_ !! _); reflexivity.
Qed.

Lemma do_override_frame (o : override) (st : proc) :
  cwd (snd (do_override o st)) = cwd st /\
  ctty (snd (do_override o st)) = ctty st /\
  ttys (snd (do_override o st)) = ttys st.
Proof.
  destruct o as [k|k v]; simpl; [unfold unsetenv|unfold setenv]; cbn [environ log];
    destruct (valid_name k); try destruct (_ !! _); auto.
Qed.

Lemma do_override_lookup (o : override) (st : proc) (key : string) :
  strchr (override_key o) "="%char = None ->
  key <> "" ->
  environ (snd (do_override o st)) !! key =
  match o with
  | Unset_key k => if String.eqb k key then None else environ st !! key
  | Set_key k v => if String.eqb k key then Some v else environ st !! key
  end.
Proof.
  intros Hk Hkey.
  destruct o as [k|k v]; simpl in *; [unfold unsetenv|unfold setenv]; cbn [environ log];
    destruct (valid_name k) eqn:Hv; simpl.
  - destruct (String.eqb_spec k key) as [->|Hne].
    + apply lookup_delete_eq.
    + apply lookup_delete_ne. exact Hne.
  - destruct (String.eqb_spec k key) as [->|Hne]; [|reflexivity].
    exfalso. assert (valid_name key = true) by (apply valid_name_spec; auto). congruence.
  - replace (match environ st !! k with
             | Some _ => (Val 0, set_environ (<[k:=v]> (environ st)) (log (Csetenv k v 1) st))
             | None => (Val 0, set_environ (<[k:=v]> (environ st)) (log (Csetenv k v 1) st))
             end)
      with (@Val Z 0, set_environ (<[k:=v]> (environ st)) (log (Csetenv k v 1) st))
      by (destruct (environ st !! k); reflexivity).
    simpl. destruct (String.eqb_spec k key) as [->|Hne].
    + apply lookup_insert_eq.
    + apply lookup_insert_ne. exact Hne.
  - destruct (String.eqb_spec k key) as [->|Hne]; [|reflexivity].
    exfalso. assert (valid_name key = true) by (apply valid_name_spec; auto). congruence.
Qed.

Lemma apply_envp_cons (entry : string) (rest : list string) (st : proc) :
  apply_envp (entry :: rest) st = apply_envp rest (snd (apply_entry entry st)).
Proof.
  simpl. unfold bind. rewrite apply_entry_override.
  destruct (override_of entry); reflexivity.
Qed.

Lemma apply_envp_returns (entries : list string) (st : proc) :
  apply_envp entries st = (Val tt, snd (apply_envp entries st)).
Proof.
  revert st. induction entries as [|e l IH]; intros st; [reflexivity|].
  rewrite apply_envp_cons. apply IH.
Qed.

Lemma apply_envp_app (l1 l2 : list string) (st : proc) :
  apply_envp (l1 ++ l2) st = apply_envp l2 (snd (apply_envp l1 st)).
Proof.
  revert st. induction l1 as [|e l IH]; intros st; [reflexivity|].
  rewrite <- app_comm_cons, !apply_envp_cons. apply IH.
Qed.

Lemma apply_envp_calls (entries : list string) (st : proc) :
  calls (snd (apply_envp entries st)) = calls st ++ envp_calls entries.
Proof.
  revert st. induction entries as [|e l IH]; intros st.
  - simpl. rewrite app_nil_r. reflexivity.
  - rewrite apply_envp_cons, IH, apply_entry_override.
    unfold envp_calls. simpl. destruct (override_of e) as [o|]; simpl.
    + rewrite do_override_calls, <- app_assoc. reflexivity.
    + reflexivity.
Qed.

Lemma apply_envp_frame (entries : list string) (st : proc) :
  cwd (snd (apply_envp entries st)) = cwd st /\
  ctty (snd (apply_envp entries st)) = ctty st /\
  ttys (snd (apply_envp entries st)) = ttys st.
Proof.
  revert st. induction entries as [|e l IH]; intros st; [auto|].
  rewrite apply_envp_cons. destruct (IH (snd (apply_entry e st))) as (-> & -> & ->).
  rewrite apply_entry_override. destruct (override_of e) as [o|]; [|auto].
  apply do_override_frame.
Qed.

Lemma apply_envp_lookup (entries : list string) (st : proc) (key : string) :
  key <> "" ->
  environ (snd (apply_envp entries st)) !! key =
  final_binding key entries (environ st !! key).
Proof.
  intros Hkey. revert st. induction entries as [|e l IH]; intros st; [reflexivity|].
  rewrite apply_envp_cons, IH. unfold final_binding. simpl. f_equal.
  rewrite apply_entry_override.
  destruct (override_of e) as [o|] eqn:Ho; [|reflexivity].
  simpl. rewrite (do_override_lookup o st key (override_key_no_eq _ _ Ho) Hkey).
  destruct o; reflexivity.
Qed.

(** Projections of an updated process state, and nothing else. *)
Ltac proc_simpl :=
  cbn [fst snd environ cwd errno ctty ttys calls
       log set_environ set_cwd set_errno set_ctty set_ttys].

(** ** The steps of the child *)

Section ChildSteps.

Context (P : platform) (W : world).

Lemma child_chdir_skip (working_dir : option string) (st : proc) :
  chdir_request working_dir = None ->
  child_chdir W working_dir st = (Val tt, st).
Proof.
  unfold chdir_request, child_chdir. destruct working_dir as [d|]; [|reflexivity].
  destruct (str_null d); [reflexivity|discriminate].
Qed.

Lemma child_chdir_ok (working_dir : option string) (dir : string) (st : proc) :
  chdir_request working_dir = Some dir ->
  w_chdir W dir = None ->
  child_chdir W working_dir st = (Val tt, set_cwd dir (log (Cchdir dir) st)).
Proof.
  unfold chdir_request, child_chdir. destruct working_dir as [d|]; [|discriminate].
  destruct (str_null d); [discriminate|]. intros [= ->] Hw.
  simpl. unfold bind, chdir. rewrite Hw. reflexivity.
Qed.

Lemma child_chdir_fail (working_dir : option string) (dir : string) (e : Z)
    (st : proc) :
  chdir_request working_dir = Some dir ->
  w_chdir W dir = Some e ->
  child_chdir W working_dir st =
  (Halt (Exited e), log (C_exit e) (set_errno e (log (Cchdir dir) st))).
Proof.
  unfold chdir_request, child_chdir. destruct working_dir as [d|]; [|discriminate].
  destruct (str_null d); [discriminate|]. intros [= ->] Hw.
  simpl. unfold bind, chdir. rewrite Hw. reflexivity.
Qed.

Lemma child_default_term_run (st : proc) :
  exists st',
    child_default_term st = (Val tt, st') /\
    environ st' =
      match environ st !! "TERM" with
      | Some _ => environ st
      | None => <["TERM" := "xterm-256color"]> (environ st)
      end /\
    calls st' = calls st ++ default_term_calls (environ st) /\
    cwd st' = cwd st /\ ctty st' = ctty st /\ ttys st' = ttys st.
Proof.
  unfold child_default_term, default_term_calls, bind, getenv.
  destruct (environ st !! "TERM") as [v|] eqn:Hv.
  - eexists; split; [reflexivity|]. simpl. auto.
  - unfold setenv. cbn [environ log]. rewrite Hv.
    change (valid_name "TERM") with true. cbn iota.
    eexists; split; [reflexivity|]. simpl. rewrite <- app_assoc. auto.
Qed.

Lemma child_envp_run (envp : option (list string)) (st : proc) :
  exists st',
    child_envp envp st = (Val tt, st') /\
    calls st' = calls st ++ child_envp_calls envp /\
    (forall key, key <> "" ->
       environ st' !! key =
       final_binding key (default [] envp) (environ st !! key)) /\
    cwd st' = cwd st /\ ctty st' = ctty st /\ ttys st' = ttys st.
Proof.
  destruct envp as [entries|]; simpl.
  - exists (snd (apply_envp entries st)).
    split; [apply apply_envp_returns|].
    split; [apply apply_envp_calls|].
    split; [intros; apply apply_envp_lookup; assumption|].
    apply apply_envp_frame.
  - exists st. rewrite app_nil_r. auto 7.
Qed.

Lemma child_exec_replaced {A} (file : string) (argv : list string) (st : proc) :
  w_execvp W file argv = None ->
  @child_exec W A file argv st =
  (Halt (Replaced file argv), log (Cexecvp file argv) st).
Proof. intros Hw. unfold child_exec, bind, execvp. rewrite Hw. reflexivity. Qed.

Lemma child_exec_failed {A} (file : string) (argv : list string) (e : Z)
    (st : proc) :
  w_execvp W file argv = Some e ->
  @child_exec W A file argv st =
  (Halt (Exited e),
   log (C_exit e) (set_errno e (log (Cexecvp file argv) st))).
Proof. intros Hw. unfold child_exec, bind, execvp. rewrite Hw. reflexivity. Qed.

(** The child's preparation either stops at a failed [chdir] or runs to its
    end, and the log tells which. *)
Lemma child_setup_run (envp : option (list string))
    (working_dir : option string) (st : proc) :
  match chdir_error W working_dir with
  | Some e =>
      exists dir st',
        chdir_request working_dir = Some dir /\
        child_setup W envp working_dir st = (Halt (Exited e), st') /\
        calls st' = calls st ++ [Cchdir dir; C_exit e] /\
        environ st' = environ st /\ cwd st' = cwd st /\ ctty st' = ctty st
  | None =>
      exists st1 st',
        child_chdir W working_dir st = (Val tt, st1) /\
        child_setup W envp working_dir st = (Val tt, st') /\
        calls st1 = calls st ++ chdir_calls working_dir /\
        cwd st1 = default (cwd st) (chdir_request working_dir) /\
        environ st1 = environ st /\
        calls st' = calls st ++ chdir_calls working_dir
                      ++ default_term_calls (environ st)
                      ++ child_envp_calls envp /\
        (forall key, key <> "" ->
           environ st' !! key =
           final_binding key (default [] envp)
             (match environ st !! "TERM" with
              | Some _ => environ st
              | None => <["TERM" := "xterm-256color"]> (environ st)
              end !! key)) /\
        cwd st' = cwd st1 /\ ctty st' = ctty st /\ ttys st' = ttys st
  end.
Proof.
  unfold chdir_error, chdir_calls.
  destruct (chdir_request working_dir) as [dir|] eqn:Hreq.
  - destruct (w_chdir W dir) as [e|] eqn:Hw.
    + exists dir. eexists. split; [reflexivity|].
      unfold child_setup, bind. rewrite (child_chdir_fail _ _ _ _ Hreq Hw).
      split; [reflexivity|]. simpl. rewrite <- app_assoc. auto.
    + pose proof (child_chdir_ok _ _ st Hreq Hw) as Hcd.
      destruct (child_default_term_run (set_cwd dir (log (Cchdir dir) st)))
        as (st2 & Hrun2 & Henv2 & Hcalls2 & Hcwd2 & Htty2 & Httys2).
      destruct (child_envp_run envp st2)
        as (st3 & Hrun3 & Hcalls3 & Henv3 & Hcwd3 & Htty3 & Httys3).
      exists (set_cwd dir (log (Cchdir dir) st)), st3.
      split; [exact Hcd|].
      unfold child_setup, bind. rewrite Hcd, Hrun2, Hrun3.
      split; [reflexivity|]. split; [reflexivity|].
      split; [reflexivity|]. split; [reflexivity|].
      split; [rewrite Hcalls3, Hcalls2; simpl; rewrite <- !app_assoc; reflexivity|].
      split; [intros key Hkey; rewrite (Henv3 key Hkey), Henv2; reflexivity|].
      rewrite Hcwd3, Hcwd2, Htty3, Htty2, Httys3, Httys2. auto.
  - pose proof (child_chdir_skip _ st Hreq) as Hcd.
    destruct (child_default_term_run st)
      as (st2 & Hrun2 & Henv2 & Hcalls2 & Hcwd2 & Htty2 & Httys2).
    destruct (child_envp_run envp st2)
      as (st3 & Hrun3 & Hcalls3 & Henv3 & Hcwd3 & Htty3 & Httys3).
    exists st, st3.
    split; [exact Hcd|].
    unfold child_setup, bind. rewrite Hcd, Hrun2, Hrun3.
    split; [reflexivity|]. split; [rewrite app_nil_r; reflexivity|].
    split; [reflexivity|]. split; [reflexivity|].
    split; [rewrite Hcalls3, Hcalls2; simpl; rewrite <- !app_assoc; reflexivity|].
    split; [intros key Hkey; rewrite (Henv3 key Hkey), Henv2; reflexivity|].
    rewrite Hcwd3, Hcwd2, Htty3, Htty2, Httys3, Httys2. auto.
Qed.

End ChildSteps.

(** ** The fork *)

Lemma calls_since_app (st st' : proc) (l : list call) :
  calls st' = calls st ++ l -> calls_since st st' = l.
Proof.
  intros H. unfold calls_since. rewrite H.
  apply drop_app_length.
Qed.

Section Fork.

Context (P : platform) (W : world).

Lemma forkpty_run (master : Z) (termp : option Sys.termios)
    (winp : option Sys.winsize) (st : proc) :
  exists m st1,
    forkpty P W master termp winp st = (Val (forkpty_ret W, m), st1) /\
    calls st1 = calls st ++ [Cforkpty termp winp] /\
    environ st1 = environ st /\ cwd st1 = cwd st /\
    match w_forkpty W with
    | ForkFailed e => errno st1 = e /\ m = master
    | ForkParent _ amaster => m = amaster
    | ForkChild =>
        ctty st1 = Some (default (pty_default_termios P) termp,
                         default (pty_default_winsize P) winp)
    end.
Proof.
  unfold forkpty, forkpty_ret. destruct (w_forkpty W); do 2 eexists;
    (split; [reflexivity|]); simpl; auto.
Qed.

(** The child never hands a value back. *)
Lemma child_halts (file : string) (argv : list string)
    (envp : option (list string)) (working_dir : option string) (st : proc) :
  exists h st', child W file argv envp working_dir st = (Halt h, st').
Proof.
  unfold child, bind.
  pose proof (child_setup_run W envp working_dir st) as H.
  destruct (chdir_error W working_dir) as [e|].
  - destruct H as (dir & st' & _ & -> & _). eauto.
  - destruct H as (st1 & st' & _ & -> & _).
    destruct (w_execvp W file argv) as [e|] eqn:Hx.
    + rewrite (child_exec_failed W _ _ _ _ Hx). eauto.
    + rewrite (child_exec_replaced W _ _ _ Hx). eauto.
Qed.

(** [pty_spawn] is the fork followed by the branch on the pid. *)
Lemma pty_spawn_branches (file : string) (argv : list string)
    (envp : option (list string)) (working_dir : option string)
    (termios_settings : option pty_termios_t)
    (winsize_settings : option pty_winsize_t) (st : proc) :
  exists m st1,
    forkpty P W (-1) (term_ptr_of P termios_settings)
      (ws_ptr_of winsize_settings) st = (Val (forkpty_ret W, m), st1) /\
    pty_spawn P W file argv envp working_dir termios_settings
      winsize_settings st =
    if forkpty_ret W =? -1 then
      (Val {| master_fd := -1; pid := -1; error := errno st1 |}, st1)
    else if forkpty_ret W =? 0 then
      child W file argv envp working_dir st1
    else
      (Val {| master_fd := m; pid := forkpty_ret W; error := 0 |}, st1).
Proof.
  destruct (forkpty_run (-1) (term_ptr_of P termios_settings)
              (ws_ptr_of winsize_settings) st) as (m & st1 & Hf & _).
  exists m, st1. split; [exact Hf|].
  unfold pty_spawn, bind. fold (term_ptr_of P termios_settings).
  fold (ws_ptr_of winsize_settings). rewrite Hf. cbn [fst snd].
  destruct (forkpty_ret W =? -1); [reflexivity|].
  destruct (forkpty_ret W =? 0); reflexivity.
Qed.

End Fork.

(** ** Results of [pty_spawn] *)

(** C1. [pty_spawn] never reports a partial success.  When [forkpty] fails
    the result is [{-1, -1, errno}] with the error [forkpty] left in [errno],
    which is not 0; in the parent the result carries the child's pid and the
    master descriptor, both at least 0, and error 0; the child yields no
    result at all.  So every result that is returned is a success or a
    failure in the sense of the specification. *)
Theorem pty_spawn_result_never_partial
    (P : platform) (W : world) (file : string) (argv : list string)
    (envp : option (list string)) (working_dir : option string)
    (termios_settings : option pty_termios_t)
    (winsize_settings : option pty_winsize_t) (st : proc) :
  forkpty_contract (w_forkpty W) ->
  let run := pty_spawn P W file argv envp working_dir termios_settings
               winsize_settings st in
  match w_forkpty W with
  | ForkFailed e =>
      fst run = Val {| master_fd := -1; pid := -1; error := e |} /\ e <> 0
  | ForkParent child amaster =>
      fst run = Val {| master_fd := amaster; pid := child; error := 0 |} /\
      0 <= child /\ 0 <= amaster
  | ForkChild => exists h, fst run = Halt h
  end /\
  (forall r, fst run = Val r -> spawn_success r \/ spawn_failure r).
Proof.
  intros Hc run.
  destruct (pty_spawn_branches P W file argv envp working_dir
              termios_settings winsize_settings st) as (m & st1 & Hf & Hrun).
  destruct (forkpty_run P W (-1) (term_ptr_of P termios_settings)
              (ws_ptr_of winsize_settings) st) as (m' & st1' & Hf' & _ & _ & _ & Ho).
  rewrite Hf in Hf'. injection Hf' as <- <-.
  fold run in Hrun. clearbody run. unfold forkpty_ret in Hrun.
  destruct (w_forkpty W) as [e|c fd|]; simpl in Hc.
  - destruct Ho as [He _]. simpl in Hrun. rewrite He in Hrun. rewrite Hrun.
    split; [auto|]. intros r [= <-]. right. unfold spawn_failure. simpl. auto.
  - destruct Hc as [Hc Hfd]. subst m.
    destruct (Z.eqb_spec c (-1)); [lia|]. destruct (Z.eqb_spec c 0); [lia|].
    rewrite Hrun. split; [simpl; repeat split; lia|].
    intros r [= <-]. left. unfold spawn_success. simpl. lia.
  - simpl in Hrun.
    destruct (child_halts W file argv envp working_dir st1) as (h & st' & Hh).
    rewrite Hrun, Hh. split; [eauto|]. simpl. discriminate.
Qed.

Lemma pty_spawn_result_never_partial_witness :
  (fst (pty_spawn (bsd_platform 20) (world_of (ForkFailed 12) None None)
          "sh" ["sh"] None None None None (proc0 ∅))
   = Val {| master_fd := -1; pid := -1; error := 12 |} /\ 12 <> 0) /\
  (fst (pty_spawn (bsd_platform 20) (world_of (ForkParent 4242 5) None None)
          "sh" ["sh"] None None None None (proc0 ∅))
   = Val {| master_fd := 5; pid := 4242; error := 0 |} /\ 0 <= 4242 /\ 0 <= 5).
Proof.
  split.
  - refine (proj1 (pty_spawn_result_never_partial (bsd_platform 20)
             (world_of (ForkFailed 12) None None)
             "sh" ["sh"] None None None None (proc0 ∅) _)).
    simpl. lia.
  - refine (proj1 (pty_spawn_result_never_partial (bsd_platform 20)
             (world_of (ForkParent 4242 5) None None)
             "sh" ["sh"] None None None None (proc0 ∅) _)).
    simpl. lia.
Defined.

(** ** Failures in the child *)

(** C2. In the child every failure ends the process with the error as exit
    status.  If a directory is requested and [chdir] fails with [e], the run
    is [forkpty], [chdir], [_exit(e)] and nothing else; if the preparation
    goes through and [execvp] fails with [e], the run ends with [execvp],
    [_exit(e)], whatever [errno] held before.  No run of the child hands a
    result back to the caller of [pty_spawn]. *)
Theorem child_failure_exits_with_errno
    (P : platform) (W : world) (file : string) (argv : list string)
    (envp : option (list string)) (working_dir : option string)
    (termios_settings : option pty_termios_t)
    (winsize_settings : option pty_winsize_t) (st : proc) :
  w_forkpty W = ForkChild ->
  let run := pty_spawn P W file argv envp working_dir termios_settings
               winsize_settings st in
  (forall dir e,
     chdir_request working_dir = Some dir -> w_chdir W dir = Some e ->
     fst run = Halt (Exited e) /\
     calls_since st (snd run) =
       [Cforkpty (term_ptr_of P termios_settings) (ws_ptr_of winsize_settings);
        Cchdir dir; C_exit e]) /\
  (forall e,
     chdir_error W working_dir = None -> w_execvp W file argv = Some e ->
     fst run = Halt (Exited e) /\
     exists before,
       calls_since st (snd run) = before ++ [Cexecvp file argv; C_exit e]) /\
  (forall r, fst run <> Val r).
Proof.
  intros Hfork run.
  destruct (pty_spawn_branches P W file argv envp working_dir
              termios_settings winsize_settings st) as (m & st1 & Hf & Hrun).
  destruct (forkpty_run P W (-1) (term_ptr_of P termios_settings)
              (ws_ptr_of winsize_settings) st)
    as (m' & st1' & Hf' & Hcalls1 & _).
  rewrite Hf in Hf'. injection Hf' as <- <-.
  fold run in Hrun. clearbody run.
  unfold forkpty_ret in Hrun. rewrite Hfork in Hrun.
  change (0 =? -1) with false in Hrun. change (0 =? 0) with true in Hrun.
  cbv iota in Hrun. unfold child, bind in Hrun.
  pose proof (child_setup_run W envp working_dir st1) as Hsetup.
  split; [|split].
  - intros dir e Hreq Hw. unfold chdir_error in Hsetup.
    rewrite Hreq, Hw in Hsetup.
    destruct Hsetup as (dir' & st' & Hd & Hs & Hc & _). rewrite Hs in Hrun.
    rewrite Hrun. split; [reflexivity|].
    apply calls_since_app. cbn [snd]. injection Hd as <-.
    rewrite Hc, Hcalls1, <- app_assoc. reflexivity.
  - intros e Hcd Hx. rewrite Hcd in Hsetup.
    destruct Hsetup as (st2 & st' & _ & Hs & _ & _ & _ & Hc & _).
    rewrite Hs, (child_exec_failed W _ _ _ _ Hx) in Hrun.
    rewrite Hrun. split; [reflexivity|].
    exists ([Cforkpty (term_ptr_of P termios_settings) (ws_ptr_of winsize_settings)]
              ++ chdir_calls working_dir ++ default_term_calls (environ st1)
              ++ child_envp_calls envp).
    apply calls_since_app. proc_simpl.
    rewrite Hc, Hcalls1. repeat rewrite <- app_assoc. reflexivity.
  - intros r.
    destruct (child_halts W file argv envp working_dir st1) as (h & st' & Hh).
    unfold child, bind in Hh. rewrite Hh in Hrun. rewrite Hrun. discriminate.
Qed.

Lemma child_failure_exits_with_errno_witness :
  fst (pty_spawn (bsd_platform 20) (world_of ForkChild (Some 2) None)
         "sh" ["sh"] (Some ["FOO=bar"]) (Some "/nowhere") None None (proc0 ∅))
  = Halt (Exited 2) /\
  fst (pty_spawn (bsd_platform 20) (world_of ForkChild None (Some 13))
         "sh" ["sh"] (Some ["=x"]) (Some "/tmp") None None (proc0 ∅))
  = Halt (Exited 13).
Proof.
  split.
  - exact (proj1 (proj1 (child_failure_exits_with_errno (bsd_platform 20)
             (world_of ForkChild (Some 2) None) "sh" ["sh"] (Some ["FOO=bar"])
             (Some "/nowhere") None None (proc0 ∅) eq_refl)
             "/nowhere" 2 eq_refl eq_refl)).
  - exact (proj1 (proj1 (proj2 (child_failure_exits_with_errno (bsd_platform 20)
             (world_of ForkChild None (Some 13)) "sh" ["sh"] (Some ["=x"])
             (Some "/tmp") None None (proc0 ∅) eq_refl))
             13 eq_refl eq_refl)).
Defined.

(** ** What the parent keeps *)

(** C7. Whenever [pty_spawn] returns a result, the process it returns in has
    made the single call [forkpty]; its environment and its working directory
    are what they were.  In any run, a call to [chdir], [setenv] or
    [unsetenv] is made only when [forkpty] returned 0. *)
Theorem parent_environment_untouched
    (P : platform) (W : world) (file : string) (argv : list string)
    (envp : option (list string)) (working_dir : option string)
    (termios_settings : option pty_termios_t)
    (winsize_settings : option pty_winsize_t) (st : proc) :
  let run := pty_spawn P W file argv envp working_dir termios_settings
               winsize_settings st in
  (forall r, fst run = Val r ->
     calls_since st (snd run) =
       [Cforkpty (term_ptr_of P termios_settings) (ws_ptr_of winsize_settings)] /\
     environ (snd run) = environ st /\
     cwd (snd run) = cwd st) /\
  (forall c, In c (calls_since st (snd run)) -> is_env_or_cwd c = true ->
     forkpty_ret W = 0).
Proof.
  intros run.
  destruct (pty_spawn_branches P W file argv envp working_dir
              termios_settings winsize_settings st) as (m & st1 & Hf & Hrun).
  destruct (forkpty_run P W (-1) (term_ptr_of P termios_settings)
              (ws_ptr_of winsize_settings) st)
    as (m' & st1' & Hf' & Hcalls1 & Henv1 & Hcwd1 & _).
  rewrite Hf in Hf'. injection Hf' as <- <-.
  fold run in Hrun. clearbody run.
  assert (Hparent : calls_since st st1 =
            [Cforkpty (term_ptr_of P termios_settings) (ws_ptr_of winsize_settings)])
    by (apply calls_since_app; exact Hcalls1).
  destruct (Z.eqb_spec (forkpty_ret W) (-1)) as [Hm1|Hm1].
  { rewrite Hrun. cbn [fst snd]. split; [auto|].
    intros c Hin Hc. rewrite Hparent in Hin. destruct Hin as [<-|[]]. discriminate. }
  destruct (Z.eqb_spec (forkpty_ret W) 0) as [H0|H0].
  { split; [|auto]. intros r Hr.
    destruct (child_halts W file argv envp working_dir st1) as (h & st' & Hh).
    rewrite Hrun, Hh in Hr. discriminate. }
  rewrite Hrun. cbn [fst snd]. split; [auto|].
  intros c Hin Hc. rewrite Hparent in Hin. destruct Hin as [<-|[]]. discriminate.
Qed.

Lemma parent_environment_untouched_witness :
  environ (snd (pty_spawn (bsd_platform 20) (world_of (ForkParent 4242 5) None None)
                  "sh" ["sh"] (Some ["FOO=bar"; "TERM=linux"]) (Some "/tmp")
                  (Some sample_termios) (Some sample_winsize)
                  (proc0 (<["HOME" := "/root"]> ∅))))
  = <["HOME" := "/root"]> ∅ /\
  cwd (snd (pty_spawn (bsd_platform 20) (world_of (ForkParent 4242 5) None None)
              "sh" ["sh"] (Some ["FOO=bar"; "TERM=linux"]) (Some "/tmp")
              (Some sample_termios) (Some sample_winsize)
              (proc0 (<["HOME" := "/root"]> ∅))))
  = "/".
Proof.
  exact (proj2 (proj1 (parent_environment_untouched (bsd_platform 20)
           (world_of (ForkParent 4242 5) None None)
           "sh" ["sh"] (Some ["FOO=bar"; "TERM=linux"]) (Some "/tmp")
           (Some sample_termios) (Some sample_winsize)
           (proc0 (<["HOME" := "/root"]> ∅)))
           {| master_fd := 5; pid := 4242; error := 0 |} eq_refl)).
Defined.

(** ** Entries without a ['='] *)

(** C9. An entry with no ['='] makes no call and changes nothing, the loop
    goes on: the run over a list that contains it is the run over the list
    without it. *)
Theorem entry_without_eq_is_skipped
    (before after : list string) (entry : string) (st : proc) :
  strchr entry "="%char = None ->
  apply_entry entry st = (Val tt, st) /\
  apply_envp (before ++ entry :: after) st = apply_envp (before ++ after) st /\
  exists st', apply_envp (before ++ entry :: after) st = (Val tt, st') /\
    calls st' = calls st ++ envp_calls before ++ envp_calls after.
Proof.
  intros Hnone.
  assert (Hskip : forall s, apply_entry entry s = (Val tt, s)).
  { intros s. unfold apply_entry. rewrite Hnone. reflexivity. }
  split; [apply Hskip|].
  assert (Heq : apply_envp (before ++ entry :: after) st
                = apply_envp (before ++ after) st).
  { rewrite !apply_envp_app, apply_envp_cons, Hskip. reflexivity. }
  split; [exact Heq|].
  exists (snd (apply_envp (before ++ after) st)).
  rewrite Heq. split; [apply apply_envp_returns|].
  rewrite apply_envp_app, !apply_envp_calls, <- app_assoc. reflexivity.
Qed.

Lemma entry_without_eq_is_skipped_witness :
  apply_envp (["A=1"] ++ "NOEQUALS" :: ["B=2"]) (proc0 ∅)
  = apply_envp (["A=1"] ++ ["B=2"]) (proc0 ∅).
Proof.
  exact (proj1 (proj2 (entry_without_eq_is_skipped ["A=1"] ["B=2"] "NOEQUALS"
                         (proc0 ∅) eq_refl))).
Defined.

(** ** The child that reaches the new image *)

Section ChildRun.

Context (P : platform) (W : world).
Context (file : string) (argv : list string) (envp : option (list string))
        (working_dir : option string)
        (termios_settings : option pty_termios_t)
        (winsize_settings : option pty_winsize_t).

(** In the child, [pty_spawn] is [child] run on a copy of the caller whose
    controlling terminal is the configured slave. *)
Lemma pty_spawn_in_child (st : proc) :
  w_forkpty W = ForkChild ->
  exists st1,
    pty_spawn P W file argv envp working_dir termios_settings
      winsize_settings st = child W file argv envp working_dir st1 /\
    calls st1 = calls st ++ [Cforkpty (term_ptr_of P termios_settings)
                                (ws_ptr_of winsize_settings)] /\
    environ st1 = environ st /\ cwd st1 = cwd st /\
    ctty st1 = Some (default (pty_default_termios P) (term_ptr_of P termios_settings),
                     default (pty_default_winsize P) (ws_ptr_of winsize_settings)).
Proof.
  intros Hfork.
  destruct (pty_spawn_branches P W file argv envp working_dir
              termios_settings winsize_settings st) as (m & st1 & Hf & Hrun).
  destruct (forkpty_run P W (-1) (term_ptr_of P termios_settings)
              (ws_ptr_of winsize_settings) st)
    as (m' & st1' & Hf' & Hcalls & Henv & Hcwd & Ho).
  rewrite Hf in Hf'. injection Hf' as <- <-.
  unfold forkpty_ret in Hrun. rewrite Hfork in Hrun, Ho.
  change (0 =? -1) with false in Hrun. change (0 =? 0) with true in Hrun.
  cbv iota in Hrun. exists st1. repeat split; assumption.
Qed.

(** The run of a child whose [chdir] (if any) and [execvp] succeed. *)
Lemma pty_spawn_replaced (st : proc) :
  w_forkpty W = ForkChild ->
  chdir_error W working_dir = None ->
  w_execvp W file argv = None ->
  exists st',
    pty_spawn P W file argv envp working_dir termios_settings
      winsize_settings st = (Halt (Replaced file argv), st') /\
    calls st' = calls st ++ [Cforkpty (term_ptr_of P termios_settings)
                                (ws_ptr_of winsize_settings)]
                  ++ chdir_calls working_dir
                  ++ default_term_calls (environ st)
                  ++ child_envp_calls envp
                  ++ [Cexecvp file argv] /\
    (forall key, key <> "" ->
       environ st' !! key =
       final_binding key (default [] envp)
         (match environ st !! "TERM" with
          | Some _ => environ st
          | None => <["TERM" := "xterm-256color"]> (environ st)
          end !! key)) /\
    cwd st' = default (cwd st) (chdir_request working_dir) /\
    ctty st' = Some (default (pty_default_termios P) (term_ptr_of P termios_settings),
                     default (pty_default_winsize P) (ws_ptr_of winsize_settings)).
Proof.
  intros Hfork Hcd Hx.
  destruct (pty_spawn_in_child st Hfork)
    as (st1 & Hrun & Hcalls1 & Henv1 & Hcwd1 & Htty1).
  pose proof (child_setup_run W envp working_dir st1) as Hsetup.
  rewrite Hcd in Hsetup.
  destruct Hsetup
    as (st2 & st' & _ & Hs & _ & Hcwd2 & _ & Hcalls & Henv & Hcwd & Htty & _).
  unfold child, bind in Hrun.
  rewrite Hs, (child_exec_replaced W _ _ _ Hx) in Hrun.
  eexists. split; [exact Hrun|]. proc_simpl.
  split; [rewrite Hcalls, Hcalls1, Henv1, <- !app_assoc; reflexivity|].
  split; [intros key Hkey; rewrite (Henv key Hkey), Henv1; reflexivity|].
  rewrite Hcwd, Hcwd2, Hcwd1, Htty, Htty1. auto.
Qed.

End ChildRun.

(** ** Environment overrides *)

Lemma final_binding_app (key : string) (l1 l2 : list string)
    (init : option string) :
  final_binding key (l1 ++ l2) init
  = final_binding key l2 (final_binding key l1 init).
Proof. unfold final_binding. apply fold_left_app. Qed.

Lemma final_binding_other (key : string) (l : list string)
    (init : option string) :
  Forall (fun entry => forall o, override_of entry = Some o ->
                                 override_key o <> key) l ->
  final_binding key l init = init.
Proof.
  intros H. revert init. induction H as [|e l He _ IH]; intros init; [reflexivity|].
  change (e :: l) with ([e] ++ l). rewrite final_binding_app, IH.
  unfold final_binding. simpl.
  destruct (override_of e) as [[k|k v]|]; [| |reflexivity];
    specialize (He _ eq_refl); simpl in He;
    destruct (String.eqb_spec k key); congruence.
Qed.

Lemma override_of_join (k v : string) :
  strchr k "="%char = None ->
  override_of (k +:+ String "="%char v)
  = Some (if str_null v then Unset_key k else Set_key k v).
Proof.
  intros Hk. unfold override_of. rewrite (split_first_eq_of_join k v Hk).
  reflexivity.
Qed.

(** C3. The loop over a non-null [envp] takes the entries in list order and
    makes, for each entry with a ['='], the one call its split on the first
    ['='] asks for: [unsetenv(key)] when nothing follows the ['='], otherwise
    [setenv(key, value, 1)].  For every non-empty name the resulting
    environment holds what the last entry for that name decided, so a later
    entry wins (libc refuses the empty name, which an entry that begins with
    ['='] asks for); with
    ["FOO=bar"] followed by ["FOO="] the name FOO is absent, also in the
    environment the child hands to [execvp]. *)
Theorem envp_overrides_applied_in_order (entries : list string) (st : proc) :
  let st' := snd (apply_envp entries st) in
  apply_envp entries st = (Val tt, st') /\
  calls st' = calls st ++ envp_calls entries /\
  (forall key, key <> "" ->
     environ st' !! key = final_binding key entries (environ st !! key)) /\
  (forall before after k v,
     entries = before ++ (k +:+ String "="%char v) :: after ->
     k <> "" -> strchr k "="%char = None ->
     Forall (fun entry => forall o, override_of entry = Some o ->
                                    override_key o <> k) after ->
     environ st' !! k = if str_null v then None else Some v) /\
  (entries = ["FOO=bar"; "FOO="] ->
     envp_calls entries = [Csetenv "FOO" "bar" 1; Cunsetenv "FOO"] /\
     environ st' !! "FOO" = None /\
     forall P W file argv working_dir termios_settings winsize_settings,
       w_forkpty W = ForkChild ->
       chdir_error W working_dir = None ->
       w_execvp W file argv = None ->
       let run := pty_spawn P W file argv (Some entries) working_dir
                    termios_settings winsize_settings st in
       fst run = Halt (Replaced file argv) /\
       environ (snd run) !! "FOO" = None).
Proof.
  intros st'. subst st'.
  split; [apply apply_envp_returns|].
  split; [apply apply_envp_calls|].
  split; [intros key Hkey; apply apply_envp_lookup; exact Hkey|].
  split.
  - intros before after k v -> Hk Hnoeq Hafter.
    rewrite (apply_envp_lookup _ _ _ Hk).
    rewrite final_binding_app. change (?x :: after) with ([x] ++ after).
    rewrite final_binding_app, (final_binding_other _ _ _ Hafter).
    unfold final_binding at 1. simpl. rewrite (override_of_join k v Hnoeq).
    destruct (str_null v); rewrite String.eqb_refl; reflexivity.
  - intros ->. split; [reflexivity|].
    split; [rewrite apply_envp_lookup by discriminate; reflexivity|].
    intros P W file argv working_dir termios_settings winsize_settings
           Hfork Hcd Hx run.
    destruct (pty_spawn_replaced P W file argv (Some ["FOO=bar"; "FOO="])
                working_dir termios_settings winsize_settings st Hfork Hcd Hx)
      as (st' & Hrun & _ & Henv & _).
    subst run. rewrite Hrun. split; [reflexivity|].
    cbn [snd]. rewrite Henv by discriminate. reflexivity.
Qed.

Lemma envp_overrides_applied_in_order_witness :
  environ (snd (apply_envp ["PATH=/bin"; "FOO=bar"; "LANG=C"; "FOO="; "LANG=en"]
                  (proc0 (<["FOO" := "old"]> ∅)))) !! "FOO" = None /\
  environ (snd (apply_envp ["PATH=/bin"; "FOO=bar"; "LANG=C"; "FOO="; "LANG=en"]
                  (proc0 (<["FOO" := "old"]> ∅)))) !! "LANG" = Some "en" /\
  environ (snd (pty_spawn linux_platform (world_of ForkChild None None)
                  "env" ["env"] (Some ["FOO=bar"; "FOO="]) None None None
                  (proc0 (<["FOO" := "old"]> ∅)))) !! "FOO" = None.
Proof.
  split; [|split].
  - destruct (envp_overrides_applied_in_order
                ["PATH=/bin"; "FOO=bar"; "LANG=C"; "FOO="; "LANG=en"]
                (proc0 (<["FOO" := "old"]> ∅))) as (_ & _ & _ & Hlast & _).
    apply (Hlast ["PATH=/bin"; "FOO=bar"; "LANG=C"] ["LANG=en"] "FOO" "").
    + reflexivity.
    + discriminate.
    + reflexivity.
    + repeat constructor. intros o Ho. vm_compute in Ho.
      injection Ho as <-. discriminate.
  - destruct (envp_overrides_applied_in_order
                ["PATH=/bin"; "FOO=bar"; "LANG=C"; "FOO="; "LANG=en"]
                (proc0 (<["FOO" := "old"]> ∅))) as (_ & _ & _ & Hlast & _).
    apply (Hlast ["PATH=/bin"; "FOO=bar"; "LANG=C"; "FOO="] [] "LANG" "en").
    + reflexivity.
    + discriminate.
    + reflexivity.
    + constructor.
  - destruct (envp_overrides_applied_in_order ["FOO=bar"; "FOO="]
                (proc0 (<["FOO" := "old"]> ∅))) as (_ & _ & _ & _ & Hfoo).
    destruct (Hfoo eq_refl) as (_ & _ & Hspawn).
    apply (Hspawn linux_platform (world_of ForkChild None None) "env" ["env"]
             None None None); reflexivity.
Defined.

(** ** The default for TERM *)

Lemma default_term_lookup (env : gmap string string) :
  match env !! "TERM" with
  | Some _ => env
  | None => <["TERM" := "xterm-256color"]> env
  end !! "TERM" = Some (default "xterm-256color" (env !! "TERM")).
Proof.
  destruct (env !! "TERM") as [v|] eqn:Hv; [exact Hv|apply lookup_insert_eq].
Qed.

(** C4. The TERM step sets TERM to ["xterm-256color"] exactly when the
    environment has no TERM; a value that is there stays, and no other name
    changes.  In a child that reaches the new image the calls of this step
    come before the calls of the overrides, so the TERM handed on is what the
    last override for TERM decides, applied to the existing or default
    value: with [envp = ["TERM=linux"]] it is [linux], with no [envp] and no
    TERM before it is the default. *)
Theorem term_default_precedes_overrides
    (P : platform) (W : world) (file : string) (argv : list string)
    (envp : option (list string)) (working_dir : option string)
    (termios_settings : option pty_termios_t)
    (winsize_settings : option pty_winsize_t) (st : proc) :
  (exists st',
     child_default_term st = (Val tt, st') /\
     environ st' = match environ st !! "TERM" with
                   | Some _ => environ st
                   | None => <["TERM" := "xterm-256color"]> (environ st)
                   end /\
     calls st' = calls st ++ default_term_calls (environ st)) /\
  (w_forkpty W = ForkChild ->
   chdir_error W working_dir = None ->
   w_execvp W file argv = None ->
   let run := pty_spawn P W file argv envp working_dir termios_settings
                winsize_settings st in
   fst run = Halt (Replaced file argv) /\
   calls_since st (snd run) =
     [Cforkpty (term_ptr_of P termios_settings) (ws_ptr_of winsize_settings)]
     ++ chdir_calls working_dir
     ++ default_term_calls (environ st)
     ++ child_envp_calls envp
     ++ [Cexecvp file argv] /\
   environ (snd run) !! "TERM" =
     final_binding "TERM" (default [] envp)
       (Some (default "xterm-256color" (environ st !! "TERM"))) /\
   (envp = Some ["TERM=linux"] -> environ (snd run) !! "TERM" = Some "linux") /\
   (envp = None ->
    environ (snd run) !! "TERM" =
      Some (default "xterm-256color" (environ st !! "TERM")))).
Proof.
  split.
  - destruct (child_default_term_run st) as (st' & Hrun & Henv & Hcalls & _).
    exists st'. auto.
  - intros Hfork Hcd Hx run.
    destruct (pty_spawn_replaced P W file argv envp working_dir
                termios_settings winsize_settings st Hfork Hcd Hx)
      as (st' & Hrun & Hcalls & Henv & _).
    fold run in Hrun. clearbody run. rewrite Hrun. proc_simpl.
    assert (Hterm : environ st' !! "TERM" =
              final_binding "TERM" (default [] envp)
                (Some (default "xterm-256color" (environ st !! "TERM")))).
    { rewrite Henv by discriminate. rewrite default_term_lookup. reflexivity. }
    split; [reflexivity|].
    split; [apply calls_since_app; exact Hcalls|].
    split; [exact Hterm|].
    split; intros ->; rewrite Hterm; reflexivity.
Qed.

Lemma term_default_precedes_overrides_witness :
  environ (snd (pty_spawn linux_platform (world_of ForkChild None None)
                  "sh" ["sh"] (Some ["TERM=linux"]) (Some "/tmp") None None
                  (proc0 (<["TERM" := "vt100"]> ∅)))) !! "TERM" = Some "linux" /\
  environ (snd (pty_spawn linux_platform (world_of ForkChild None None)
                  "sh" ["sh"] None None None None
                  (proc0 (<["HOME" := "/root"]> ∅)))) !! "TERM"
  = Some "xterm-256color" /\
  environ (snd (pty_spawn linux_platform (world_of ForkChild None None)
                  "sh" ["sh"] None None None None
                  (proc0 (<["TERM" := "vt100"]> ∅)))) !! "TERM" = Some "vt100".
Proof.
  split; [|split].
  - destruct (term_default_precedes_overrides linux_platform
                (world_of ForkChild None None) "sh" ["sh"] (Some ["TERM=linux"])
                (Some "/tmp") None None (proc0 (<["TERM" := "vt100"]> ∅)))
      as [_ Hrun].
    destruct (Hrun eq_refl eq_refl eq_refl) as (_ & _ & _ & Hlinux & _).
    exact (Hlinux eq_refl).
  - destruct (term_default_precedes_overrides linux_platform
                (world_of ForkChild None None) "sh" ["sh"] None
                None None None (proc0 (<["HOME" := "/root"]> ∅)))
      as [_ Hrun].
    destruct (Hrun eq_refl eq_refl eq_refl) as (_ & _ & _ & _ & Hnone).
    exact (Hnone eq_refl).
  - destruct (term_default_precedes_overrides linux_platform
                (world_of ForkChild None None) "sh" ["sh"] None
                None None None (proc0 (<["TERM" := "vt100"]> ∅)))
      as [_ Hrun].
    destruct (Hrun eq_refl eq_refl eq_refl) as (_ & _ & _ & _ & Hnone).
    exact (Hnone eq_refl).
Defined.

(** ** [pty_resize] *)

(** C8. [pty_resize] makes one call, [ioctl(master_fd, TIOCSWINSZ, &ws)] with
    [ws = {rows, cols, 0, 0}], and its value is the value of that call: 0 when
    the descriptor is an open terminal, whose size is then [ws], and -1
    otherwise, in which case no size has changed.  The size behind any other
    descriptor stays in both cases. *)
Theorem pty_resize_is_one_ioctl
    (W : world) (master_fd rows cols : Z) (st : proc) :
  let ws := {| Sys.ws_row := rows; Sys.ws_col := cols;
               Sys.ws_xpixel := 0; Sys.ws_ypixel := 0 |} in
  let run := pty_resize W master_fd rows cols st in
  calls_since st (snd run) = [Cioctl_TIOCSWINSZ master_fd ws] /\
  run = ioctl_TIOCSWINSZ W master_fd ws st /\
  (is_Some (ttys st !! master_fd) ->
     fst run = Val 0 /\ ttys (snd run) !! master_fd = Some ws) /\
  (ttys st !! master_fd = None ->
     fst run = Val (-1) /\ ttys (snd run) = ttys st /\
     errno (snd run) = w_ioctl_errno W master_fd) /\
  (fst run = Val 0 \/ fst run = Val (-1)) /\
  (forall fd, fd <> master_fd -> ttys (snd run) !! fd = ttys st !! fd).
Proof.
  intros ws run. subst run. unfold pty_resize. fold ws.
  unfold ioctl_TIOCSWINSZ. proc_simpl.
  destruct (ttys st !! master_fd) as [old|] eqn:Hfd; proc_simpl.
  - split; [apply calls_since_app; reflexivity|].
    split; [reflexivity|].
    split; [intros _; split; [reflexivity|apply lookup_insert_eq]|].
    split; [discriminate|].
    split; [left; reflexivity|].
    intros fd Hne. apply lookup_insert_ne. congruence.
  - split; [apply calls_since_app; reflexivity|].
    split; [reflexivity|].
    split; [intros [? ?]; discriminate|].
    split; [auto|].
    split; [right; reflexivity|reflexivity].
Qed.

Lemma pty_resize_is_one_ioctl_witness :
  (fst (pty_resize (world_of (ForkParent 4242 5) None None) 5 50 120
          (snd (pty_spawn linux_platform (world_of (ForkParent 4242 5) None None)
                  "sh" ["sh"] None None None (Some sample_winsize) (proc0 ∅))))
   = Val 0 /\
   ttys (snd (pty_resize (world_of (ForkParent 4242 5) None None) 5 50 120
          (snd (pty_spawn linux_platform (world_of (ForkParent 4242 5) None None)
                  "sh" ["sh"] None None None (Some sample_winsize) (proc0 ∅)))))
     !! 5
   = Some {| Sys.ws_row := 50; Sys.ws_col := 120;
             Sys.ws_xpixel := 0; Sys.ws_ypixel := 0 |}) /\
  (fst (pty_resize (world_of (ForkParent 4242 5) None None) 7 50 120 (proc0 ∅))
   = Val (-1) /\
   ttys (snd (pty_resize (world_of (ForkParent 4242 5) None None) 7 50 120
                (proc0 ∅))) = ∅ /\
   errno (snd (pty_resize (world_of (ForkParent 4242 5) None None) 7 50 120
                 (proc0 ∅))) = 9).
Proof.
  split.
  - destruct (pty_resize_is_one_ioctl (world_of (ForkParent 4242 5) None None)
                5 50 120
                (snd (pty_spawn linux_platform
                        (world_of (ForkParent 4242 5) None None)
                        "sh" ["sh"] None None None (Some sample_winsize)
                        (proc0 ∅)))) as (_ & _ & Hopen & _).
    apply Hopen. vm_compute. eauto.
  - destruct (pty_resize_is_one_ioctl (world_of (ForkParent 4242 5) None None)
                7 50 120 (proc0 ∅)) as (_ & _ & _ & Hclosed & _).
    apply Hclosed. reflexivity.
Defined.

(** ** Translation of the terminal attributes *)

Lemma translate_termios_spec (P : platform) (s : pty_termios_t) :
  translate_termios P s =
  cfsetospeed P (cfsetispeed P (term_before_speeds P s) (c_ispeed s))
    (c_ospeed s).
Proof.
  unfold translate_termios, term_before_speeds, memcpy, memset_termios, cc_copied,
    PTY_CC_LEN. cbn [Sys.set_c_iflag Sys.set_c_oflag Sys.set_c_cflag
    Sys.set_c_lflag Sys.set_c_cc Sys.c_iflag Sys.c_oflag Sys.c_cflag
    Sys.c_lflag Sys.c_line Sys.c_cc Sys.c_ispeed Sys.c_ospeed].
  assert (Hn : (if (32 <? NCCS P)%nat then 32%nat else NCCS P)
               = Nat.min 32 (NCCS P)).
  { destruct (Nat.ltb_spec 32 (NCCS P)); lia. }
  rewrite Hn, drop_replicate. reflexivity.
Qed.

Lemma term_before_speeds_cc (P : platform) (s : pty_termios_t) :
  length (c_cc s) = PTY_CC_LEN ->
  length (Sys.c_cc (term_before_speeds P s)) = NCCS P /\
  (forall i, (i < cc_copied P)%nat ->
     Sys.c_cc (term_before_speeds P s) !! i = c_cc s !! i) /\
  (forall i, (cc_copied P <= i < NCCS P)%nat ->
     Sys.c_cc (term_before_speeds P s) !! i = Some 0).
Proof.
  intros Hlen. unfold term_before_speeds. cbn [Sys.c_cc].
  assert (Htake : length (take (cc_copied P) (c_cc s)) = cc_copied P).
  { apply length_take_le. rewrite Hlen. unfold cc_copied. lia. }
  split; [|split].
  - rewrite length_app, Htake, length_replicate. unfold cc_copied. lia.
  - intros i Hi. rewrite lookup_app_l by (rewrite Htake; exact Hi).
    apply lookup_take_lt. exact Hi.
  - intros i Hi. rewrite lookup_app_r by (rewrite Htake; lia).
    rewrite Htake. apply lookup_replicate_2. lia.
Qed.

(** ** The whole run of the child *)

Lemma child_run (W : world) (file : string) (argv : list string)
    (envp : option (list string)) (working_dir : option string) (st1 : proc) :
  let out := child W file argv envp working_dir st1 in
  ctty (snd out) = ctty st1 /\
  match chdir_error W working_dir with
  | Some e =>
      exists dir,
        chdir_request working_dir = Some dir /\
        fst out = Halt (Exited e) /\
        calls (snd out) = calls st1 ++ [Cchdir dir; C_exit e]
  | None =>
      exists st2,
        child_setup W envp working_dir st1 = (Val tt, st2) /\
        fst out = Halt match w_execvp W file argv with
                       | Some e => Exited e
                       | None => Replaced file argv
                       end /\
        calls (snd out) =
          calls st1
          ++ (chdir_calls working_dir ++ default_term_calls (environ st1)
              ++ child_envp_calls envp)
          ++ Cexecvp file argv ::
             match w_execvp W file argv with
             | Some e => [C_exit e]
             | None => []
             end /\
        environ (snd out) = environ st2 /\
        cwd (snd out) = cwd st2 /\
        ctty (snd out) = ctty st2
  end.
Proof.
  intros out. subst out. unfold child, bind.
  pose proof (child_setup_run W envp working_dir st1) as Hsetup.
  destruct (chdir_error W working_dir) as [e|].
  - destruct Hsetup as (dir & st' & Hreq & -> & Hcalls & _ & _ & Htty).
    proc_simpl. split; [exact Htty|]. exists dir. auto.
  - destruct Hsetup
      as (st2 & st' & _ & -> & _ & _ & _ & Hcalls & _ & _ & Htty & _).
    destruct (w_execvp W file argv) as [e|] eqn:Hx.
    + rewrite (child_exec_failed W _ _ _ _ Hx). proc_simpl.
      split; [exact Htty|]. exists st'. split; [reflexivity|].
      split; [reflexivity|]. rewrite Hcalls.
      split; [repeat rewrite <- app_assoc; reflexivity|auto].
    + rewrite (child_exec_replaced W _ _ _ Hx). proc_simpl.
      split; [exact Htty|]. exists st'. split; [reflexivity|].
      split; [reflexivity|]. rewrite Hcalls.
      split; [repeat rewrite <- app_assoc; reflexivity|auto].
Qed.

(** ** The attributes handed to [forkpty] *)

(** C5. A non-null [termios_settings] is translated by copying the four flag
    words as they are and the first [min(32, NCCS)] control characters, then
    handing the structure to [cfsetispeed] and [cfsetospeed] with the two
    speeds; the structure so obtained is the one [forkpty] receives, first of
    all calls, and in the child it is what the controlling terminal carries
    to the end of the run. *)
Theorem termios_translated_for_forkpty (P : platform) (s : pty_termios_t) :
  length (c_cc s) = PTY_CC_LEN ->
  let base := term_before_speeds P s in
  let term := translate_termios P s in
  (Sys.c_iflag base = c_iflag s /\ Sys.c_oflag base = c_oflag s /\
   Sys.c_cflag base = c_cflag s /\ Sys.c_lflag base = c_lflag s) /\
  length (Sys.c_cc base) = NCCS P /\
  (forall i, (i < Nat.min 32 (NCCS P))%nat -> Sys.c_cc base !! i = c_cc s !! i) /\
  term = cfsetospeed P (cfsetispeed P base (c_ispeed s)) (c_ospeed s) /\
  forall W file argv envp working_dir winsize_settings st,
    let run := pty_spawn P W file argv envp working_dir (Some s)
                 winsize_settings st in
    (exists rest,
       calls_since st (snd run) =
         Cforkpty (Some term) (ws_ptr_of winsize_settings) :: rest) /\
    (w_forkpty W = ForkChild ->
     ctty (snd run) =
       Some (term, default (pty_default_winsize P) (ws_ptr_of winsize_settings))).
Proof.
  intros Hlen base term.
  destruct (term_before_speeds_cc P s Hlen) as (Hcclen & Hcc & _).
  split; [auto|]. split; [exact Hcclen|]. split; [exact Hcc|].
  split; [apply translate_termios_spec|].
  intros W file argv envp working_dir winsize_settings st run.
  destruct (pty_spawn_branches P W file argv envp working_dir (Some s)
              winsize_settings st) as (m & st1 & Hf & Hrun).
  destruct (forkpty_run P W (-1) (term_ptr_of P (Some s))
              (ws_ptr_of winsize_settings) st)
    as (m' & st1' & Hf' & Hcalls1 & _ & _ & Ho).
  rewrite Hf in Hf'. injection Hf' as <- <-.
  fold run in Hrun. clearbody run.
  change (term_ptr_of P (Some s)) with (Some term) in *.
  destruct (child_run W file argv envp working_dir st1) as [Htty Hchild].
  assert (Hcalls : exists rest, calls (snd (child W file argv envp working_dir st1))
                                = calls st1 ++ rest).
  { destruct (chdir_error W working_dir).
    - destruct Hchild as (dir & _ & _ & ->). eauto.
    - destruct Hchild as (st2 & _ & _ & -> & _). eauto. }
  split.
  - destruct (forkpty_ret W =? -1);
      [|destruct (forkpty_ret W =? 0)]; rewrite Hrun; proc_simpl.
    + exists []. apply calls_since_app. exact Hcalls1.
    + destruct Hcalls as [rest Hrest]. exists rest. apply calls_since_app.
      rewrite Hrest, Hcalls1, <- app_assoc. reflexivity.
    + exists []. apply calls_since_app. exact Hcalls1.
  - intros Hfork. unfold forkpty_ret in Hrun. rewrite Hfork in Hrun, Ho.
    change (0 =? -1) with false in Hrun. change (0 =? 0) with true in Hrun.
    cbv iota in Hrun. rewrite Hrun, Htty. exact Ho.
Qed.

Lemma termios_translated_for_forkpty_witness :
  translate_termios linux_platform sample_termios
  = linux_cfsetospeed
      (linux_cfsetispeed (term_before_speeds linux_platform sample_termios) 15)
      15 /\
  ctty (snd (pty_spawn (bsd_platform 20) (world_of ForkChild None None)
               "sh" ["sh"] None None (Some sample_termios) None (proc0 ∅)))
  = Some ({| Sys.c_iflag := 17664; Sys.c_oflag := 5; Sys.c_cflag := 191;
             Sys.c_lflag := 35387; Sys.c_line := 0;
             Sys.c_cc := map Z.of_nat (seq 1 20);
             Sys.c_ispeed := 15; Sys.c_ospeed := 15 |},
          pty_default_winsize (bsd_platform 20)).
Proof.
  split.
  - destruct (termios_translated_for_forkpty linux_platform sample_termios
                eq_refl) as (_ & _ & _ & Hterm & _).
    exact Hterm.
  - destruct (termios_translated_for_forkpty (bsd_platform 20) sample_termios
                eq_refl) as (_ & _ & _ & _ & Hrun).
    destruct (Hrun (world_of ForkChild None None) "sh" ["sh"] None None None
                (proc0 ∅)) as [_ Htty].
    exact (Htty eq_refl).
Defined.

Lemma pty_spawn_child_ctty
    (P : platform) (W : world) (file : string) (argv : list string)
    (envp : option (list string)) (working_dir : option string)
    (termios_settings : option pty_termios_t)
    (winsize_settings : option pty_winsize_t) (st : proc) :
  w_forkpty W = ForkChild ->
  ctty (snd (pty_spawn P W file argv envp working_dir termios_settings
               winsize_settings st))
  = Some (default (pty_default_termios P) (term_ptr_of P termios_settings),
          default (pty_default_winsize P) (ws_ptr_of winsize_settings)).
Proof.
  intros Hfork.
  destruct (pty_spawn_in_child P W file argv envp working_dir termios_settings
              winsize_settings st Hfork) as (st1 & -> & _ & _ & _ & Htty1).
  destruct (child_run W file argv envp working_dir st1) as [-> _].
  exact Htty1.
Qed.

(** C10. [term] is cleared by [memset] before anything is stored in it.  With
    speed setters that leave the line discipline and the control characters
    alone, the structure handed to [forkpty] has [c_line = 0] and a zero in
    every control character beyond the first [min(32, NCCS)]; in the child
    these are the attributes of the controlling terminal, whatever the
    driver's defaults are. *)
Theorem unassigned_termios_members_are_zero
    (P : platform) (s : pty_termios_t) :
  setters_keep_rest P ->
  length (c_cc s) = PTY_CC_LEN ->
  let term := translate_termios P s in
  Sys.c_line term = 0 /\
  length (Sys.c_cc term) = NCCS P /\
  (forall i, (Nat.min 32 (NCCS P) <= i < NCCS P)%nat ->
     Sys.c_cc term !! i = Some 0) /\
  forall W file argv envp working_dir winsize_settings st,
    w_forkpty W = ForkChild ->
    exists attr size,
      ctty (snd (pty_spawn P W file argv envp working_dir (Some s)
                   winsize_settings st)) = Some (attr, size) /\
      Sys.c_line attr = 0 /\
      (forall i, (Nat.min 32 (NCCS P) <= i < NCCS P)%nat ->
         Sys.c_cc attr !! i = Some 0).
Proof.
  intros Hkeep Hlen term.
  destruct (term_before_speeds_cc P s Hlen) as (Hcclen & _ & Hzero).
  assert (Hline : Sys.c_line term = 0).
  { subst term. rewrite translate_termios_spec.
    destruct (Hkeep (cfsetispeed P (term_before_speeds P s) (c_ispeed s))
                (c_ospeed s)) as (_ & _ & -> & _).
    destruct (Hkeep (term_before_speeds P s) (c_ispeed s)) as (-> & _).
    reflexivity. }
  assert (Hcc : Sys.c_cc term = Sys.c_cc (term_before_speeds P s)).
  { subst term. rewrite translate_termios_spec.
    destruct (Hkeep (cfsetispeed P (term_before_speeds P s) (c_ispeed s))
                (c_ospeed s)) as (_ & _ & _ & ->).
    destruct (Hkeep (term_before_speeds P s) (c_ispeed s)) as (_ & -> & _).
    reflexivity. }
  split; [exact Hline|].
  split; [rewrite Hcc; exact Hcclen|].
  split; [intros i Hi; rewrite Hcc; apply Hzero; exact Hi|].
  intros W file argv envp working_dir winsize_settings st Hfork.
  exists term, (default (pty_default_winsize P) (ws_ptr_of winsize_settings)).
  split; [apply (pty_spawn_child_ctty P W file argv envp working_dir (Some s)
                   winsize_settings st Hfork)|].
  split; [exact Hline|].
  intros i Hi. rewrite Hcc. apply Hzero. exact Hi.
Qed.

Lemma unassigned_termios_members_are_zero_witness :
  Sys.c_line (translate_termios linux_platform sample_termios) = 0 /\
  Sys.c_cc (translate_termios (bsd_platform 40) sample_termios) !! 35%nat
  = Some 0.
Proof.
  split.
  - refine (proj1 (unassigned_termios_members_are_zero linux_platform
                     sample_termios _ eq_refl)).
    intros t v. unfold linux_platform, linux_cfsetispeed, linux_cfsetospeed.
    cbn [cfsetispeed cfsetospeed].
    destruct (linux_speed_ok v); [destruct (v =? 0)|]; repeat split; reflexivity.
  - refine (proj1 (proj2 (proj2 (unassigned_termios_members_are_zero
                     (bsd_platform 40) sample_termios _ eq_refl))) 35%nat _).
    + intros t v. repeat split; reflexivity.
    + simpl. lia.
Defined.

(** ** Order of the calls in the child *)

Lemma config_before_exec (pre post : list call) :
  Forall (fun c => is_execvp c = false) pre ->
  Forall (fun c => is_config c = false) post ->
  forall (i j : nat) (c c' : call),
    (pre ++ post) !! i = Some c -> is_config c = true ->
    (pre ++ post) !! j = Some c' -> is_execvp c' = true ->
    (i < j)%nat.
Proof.
  intros Hpre Hpost i j c c' Hi Hc Hj Hc'.
  assert (Hi' : (i < length pre)%nat).
  { destruct (Nat.lt_ge_cases i (length pre)) as [|Hge]; [assumption|].
    rewrite lookup_app_r in Hi by exact Hge.
    pose proof (Forall_lookup_1 _ _ _ _ Hpost Hi) as Hno. simpl in Hno. congruence. }
  assert (Hj' : (length pre <= j)%nat).
  { destruct (Nat.lt_ge_cases j (length pre)) as [Hlt|]; [|assumption].
    rewrite lookup_app_l in Hj by exact Hlt.
    pose proof (Forall_lookup_1 _ _ _ _ Hpre Hj) as Hno. simpl in Hno. congruence. }
  lia.
Qed.

Lemma envp_calls_no_exec (entries : list string) :
  Forall (fun c => is_execvp c = false) (envp_calls entries).
Proof.
  unfold envp_calls. induction entries as [|e l IH]; simpl; [constructor|].
  destruct (override_of e) as [[k|k v]|]; simpl; [constructor; auto ..|exact IH].
Qed.

Lemma setup_calls_no_exec (envp : option (list string))
    (working_dir : option string) (env : gmap string string) :
  Forall (fun c => is_execvp c = false)
    (chdir_calls working_dir ++ default_term_calls env ++ child_envp_calls envp).
Proof.
  rewrite !Forall_app. split; [|split].
  - unfold chdir_calls. destruct (chdir_request working_dir); repeat constructor.
  - unfold default_term_calls. destruct (env !! "TERM"); repeat constructor.
  - destruct envp as [entries|]; [apply envp_calls_no_exec|constructor].
Qed.

(** C6. In every run of the child the configuration is over before the image
    is replaced.  The log begins with [forkpty], which carries the terminal
    attributes and the window size; [chdir], the TERM default and the
    overrides follow; [execvp] comes after all of them, and after it at most
    [_exit].  So every configuring call stands before every [execvp] in the
    log, and environment, working directory and controlling terminal at the
    end of the run are those [execvp] was called with. *)
Theorem configuration_precedes_exec
    (P : platform) (W : world) (file : string) (argv : list string)
    (envp : option (list string)) (working_dir : option string)
    (termios_settings : option pty_termios_t)
    (winsize_settings : option pty_winsize_t) (st : proc) :
  w_forkpty W = ForkChild ->
  let run := pty_spawn P W file argv envp working_dir termios_settings
               winsize_settings st in
  let trace := calls_since st (snd run) in
  let fork := Cforkpty (term_ptr_of P termios_settings)
                (ws_ptr_of winsize_settings) in
  match chdir_error W working_dir with
  | Some e =>
      exists dir, chdir_request working_dir = Some dir /\
                  trace = [fork; Cchdir dir; C_exit e]
  | None =>
      trace =
        (fork :: chdir_calls working_dir ++ default_term_calls (environ st)
                 ++ child_envp_calls envp)
        ++ Cexecvp file argv ::
           match w_execvp W file argv with
           | Some e => [C_exit e]
           | None => []
           end /\
      exists st2,
        child_setup W envp working_dir
          (snd (forkpty P W (-1) (term_ptr_of P termios_settings)
                  (ws_ptr_of winsize_settings) st)) = (Val tt, st2) /\
        environ (snd run) = environ st2 /\
        cwd (snd run) = cwd st2 /\
        ctty (snd run) = ctty st2
  end /\
  (forall (i j : nat) (c c' : call),
     trace !! i = Some c -> is_config c = true ->
     trace !! j = Some c' -> is_execvp c' = true ->
     (i < j)%nat).
Proof.
  intros Hfork run trace fork.
  destruct (pty_spawn_branches P W file argv envp working_dir
              termios_settings winsize_settings st) as (m & st1 & Hf & Hrun).
  destruct (forkpty_run P W (-1) (term_ptr_of P termios_settings)
              (ws_ptr_of winsize_settings) st)
    as (m' & st1' & Hf' & Hcalls1 & Henv1 & _).
  rewrite Hf in Hf'. injection Hf' as <- <-.
  fold run in Hrun. subst trace. clearbody run. rewrite Hf. cbn [snd].
  unfold forkpty_ret in Hrun. rewrite Hfork in Hrun.
  change (0 =? -1) with false in Hrun. change (0 =? 0) with true in Hrun.
  cbv iota in Hrun. rewrite Hrun.
  destruct (child_run W file argv envp working_dir st1) as [_ Hchild].
  destruct (chdir_error W working_dir) as [e|].
  - destruct Hchild as (dir & Hreq & _ & Hcalls).
    assert (Htrace : calls_since st (snd (child W file argv envp working_dir st1))
                     = [fork] ++ [Cchdir dir; C_exit e]).
    { apply calls_since_app. rewrite Hcalls, Hcalls1, <- app_assoc. reflexivity. }
    rewrite Htrace. split; [exists dir; auto|].
    change ([fork] ++ [Cchdir dir; C_exit e])
      with ([fork; Cchdir dir; C_exit e] ++ []).
    apply config_before_exec; repeat constructor.
  - destruct Hchild as (st2 & Hsetup & _ & Hcalls & Henv & Hcwd & Htty).
    assert (Htrace : calls_since st (snd (child W file argv envp working_dir st1))
                     = (fork :: chdir_calls working_dir
                          ++ default_term_calls (environ st)
                          ++ child_envp_calls envp)
                       ++ Cexecvp file argv ::
                          match w_execvp W file argv with
                          | Some e => [C_exit e]
                          | None => []
                          end).
    { apply calls_since_app. rewrite Hcalls, Hcalls1, Henv1.
      rewrite <- app_assoc. reflexivity. }
    rewrite Htrace. split.
    + split; [reflexivity|]. exists st2. auto.
    + apply config_before_exec.
      * constructor; [reflexivity|apply setup_calls_no_exec].
      * destruct (w_execvp W file argv); repeat constructor.
Qed.

Lemma configuration_precedes_exec_witness :
  calls_since (proc0 ∅)
    (snd (pty_spawn linux_platform (world_of ForkChild None None)
            "sh" ["sh"; "-l"] (Some ["FOO=bar"; "LANG="]) (Some "/tmp")
            None (Some sample_winsize) (proc0 ∅)))
  = [Cforkpty None (Some (translate_winsize sample_winsize));
     Cchdir "/tmp"; Cgetenv "TERM"; Csetenv "TERM" "xterm-256color" 0;
     Csetenv "FOO" "bar" 1; Cunsetenv "LANG"; Cexecvp "sh" ["sh"; "-l"]].
Proof.
  exact (proj1 (proj1 (configuration_precedes_exec linux_platform
           (world_of ForkChild None None) "sh" ["sh"; "-l"]
           (Some ["FOO=bar"; "LANG="]) (Some "/tmp") None
           (Some sample_winsize) (proc0 ∅) eq_refl))).
Defined.

(** * Further properties of the source *)

(** ** Splitting an entry *)

Lemma str_take_length (s : string) (n : nat) :
  strchr s "="%char = Some n -> String.length (str_take n s) = n.
Proof.
  revert n. induction s as [|a s IH]; intros n; simpl; [discriminate|].
  destruct (Ascii.eqb a "=").
  - intros [= <-]. reflexivity.
  - destruct (strchr s "=") as [m|]; [|discriminate].
    intros [= <-]. simpl. rewrite (IH m eq_refl). reflexivity.
Qed.

Lemma strchr_of_join (k v : string) :
  strchr k "="%char = None ->
  strchr (k +:+ String "="%char v) "="%char = Some (String.length k).
Proof.
  induction k as [|a k IH]; simpl; [reflexivity|].
  destruct (Ascii.eqb a "="); [discriminate|].
  destruct (strchr k "="); [discriminate|].
  intros _. rewrite IH; reflexivity.
Qed.

Lemma str_take_join (k rest : string) :
  str_take (String.length k) (k +:+ rest) = k.
Proof. induction k as [|a k IH]; simpl; [destruct rest|rewrite IH]; reflexivity. Qed.

Lemma str_drop_join (k v : string) :
  str_drop (String.length k + 1) (k +:+ String "="%char v) = v.
Proof. induction k as [|a k IH]; simpl; [reflexivity|exact IH]. Qed.

(** X1. The key and the value the loop body computes from an entry are the
    text before its first ['='] and the text after it: put back together
    around a ['='] they give the entry, the key has the length [strchr]
    found and holds no ['='].  The other way round, an entry made of a key
    without ['='], a ['='] and any value is split into that key and that
    value, also when the value holds further ['=']. *)
Theorem entry_split_round_trip (entry : string) (n : nat) :
  strchr entry "="%char = Some n ->
  let key := str_take n entry in
  let value := str_drop (n + 1) entry in
  entry = key +:+ String "="%char value /\
  String.length key = n /\
  strchr key "="%char = None /\
  forall k v,
    strchr k "="%char = None ->
    exists m,
      strchr (k +:+ String "="%char v) "="%char = Some m /\
      str_take m (k +:+ String "="%char v) = k /\
      str_drop (m + 1) (k +:+ String "="%char v) = v.
Proof.
  intros Hn key value.
  destruct (split_first_eq_join _ _ _ (strchr_split _ _ Hn)) as [Hjoin Hkey].
  split; [exact Hjoin|]. split; [apply str_take_length; exact Hn|].
  split; [exact Hkey|].
  intros k v Hk. exists (String.length k).
  split; [apply strchr_of_join; exact Hk|].
  split; [apply str_take_join|apply str_drop_join].
Qed.

Lemma entry_split_round_trip_witness :
  "PS1=a=b" = str_take 3 "PS1=a=b" +:+ String "="%char (str_drop (3 + 1) "PS1=a=b")
  /\ String.length (str_take 3 "PS1=a=b") = 3%nat.
Proof.
  destruct (entry_split_round_trip "PS1=a=b" 3 eq_refl) as (Hjoin & Hlen & _).
  split; [exact Hjoin|exact Hlen].
Defined.

(** ** Empty arguments *)

Lemma envp_calls_Forall (Q : call -> Prop) (entries : list string) :
  (forall k, Q (Cunsetenv k)) ->
  (forall k v, Q (Csetenv k v 1)) ->
  Forall Q (envp_calls entries).
Proof.
  intros Hu Hs. unfold envp_calls.
  induction entries as [|e l IH]; simpl; [constructor|].
  destruct (override_of e) as [[k|k v]|]; simpl; [constructor; auto ..|exact IH].
Qed.

Lemma setup_calls_Forall (Q : call -> Prop) (envp : option (list string))
    (env : gmap string string) :
  Q (Cgetenv "TERM") ->
  (forall k, Q (Cunsetenv k)) ->
  (forall k v o, Q (Csetenv k v o)) ->
  Forall Q (default_term_calls env ++ child_envp_calls envp).
Proof.
  intros Hg Hu Hs. rewrite Forall_app. split.
  - unfold default_term_calls. destruct (env !! "TERM"); repeat constructor; auto.
  - destruct envp as [entries|]; [|constructor].
    apply envp_calls_Forall; auto.
Qed.

(** X2. An empty [working_dir] is treated as NULL and an [envp] that holds
    only the terminating NULL as a NULL [envp]: the runs are the same, in
    every world and from every state.  With such a [working_dir] no [chdir]
    is made at all, so the child is never lost to a [chdir] to the empty
    path. *)
Theorem empty_arguments_act_as_null
    (P : platform) (W : world) (file : string) (argv : list string)
    (envp : option (list string)) (working_dir : option string)
    (termios_settings : option pty_termios_t)
    (winsize_settings : option pty_winsize_t) (st : proc) :
  pty_spawn P W file argv envp (Some EmptyString) termios_settings
    winsize_settings st
  = pty_spawn P W file argv envp None termios_settings winsize_settings st /\
  pty_spawn P W file argv (Some []) working_dir termios_settings
    winsize_settings st
  = pty_spawn P W file argv None working_dir termios_settings
      winsize_settings st /\
  Forall (fun c => forall path, c <> Cchdir path)
    (calls_since st
       (snd (pty_spawn P W file argv envp (Some EmptyString)
               termios_settings winsize_settings st))).
Proof.
  assert (Hwd : pty_spawn P W file argv envp (Some EmptyString)
                  termios_settings winsize_settings st
                = pty_spawn P W file argv envp None termios_settings
                    winsize_settings st) by reflexivity.
  split; [exact Hwd|]. split; [reflexivity|].
  rewrite Hwd.
  destruct (pty_spawn_branches P W file argv envp None termios_settings
              winsize_settings st) as (m & st1 & Hf & ->).
  destruct (forkpty_run P W (-1) (term_ptr_of P termios_settings)
              (ws_ptr_of winsize_settings) st)
    as (m' & st1' & Hf' & Hcalls1 & _).
  rewrite Hf in Hf'. injection Hf' as <- <-.
  assert (Hparent : Forall (fun c => forall path, c <> Cchdir path)
                      (calls_since st st1)).
  { rewrite (calls_since_app _ _ _ Hcalls1). repeat constructor. discriminate. }
  assert (Hchild : Forall (fun c => forall path, c <> Cchdir path)
            (calls_since st (snd (child W file argv envp None st1)))).
  { destruct (child_run W file argv envp None st1) as [_ Hrun].
    change (chdir_error W None) with (@None Z) in Hrun.
    destruct Hrun as (st2 & _ & _ & Hcalls & _).
    change (chdir_calls None) with (@nil call) in Hcalls. cbn [app] in Hcalls.
    rewrite Hcalls1, <- app_assoc in Hcalls.
    rewrite (calls_since_app _ _ _ Hcalls).
    rewrite Forall_app. split; [repeat constructor; discriminate|].
    rewrite Forall_app. split; [apply setup_calls_Forall; discriminate|].
    destruct (w_execvp W file argv); repeat constructor; discriminate. }
  destruct (forkpty_ret W =? -1); [exact Hparent|].
  destruct (forkpty_ret W =? 0); [exact Hchild|exact Hparent].
Qed.

(** ** The environment the new image inherits *)

Lemma setenv_overwrite_run (k v : string) (st : proc) :
  setenv k v 1 st =
  if valid_name k then
    (Val 0, set_environ (<[k := v]> (environ st)) (log (Csetenv k v 1) st))
  else (Val (-1), set_errno EINVAL (log (Csetenv k v 1) st)).
Proof.
  unfold setenv. cbn [environ log]. destruct (valid_name k); [|reflexivity].
  destruct (environ st !! k); reflexivity.
Qed.

Lemma do_override_environ (o : override) (st : proc) :
  environ (snd (do_override o st)) =
  if valid_name (override_key o) then
    match o with
    | Unset_key k => delete k (environ st)
    | Set_key k v => <[k := v]> (environ st)
    end
  else environ st.
Proof.
  destruct o as [k|k v]; cbn [do_override override_key].
  - unfold unsetenv. destruct (valid_name k); reflexivity.
  - rewrite setenv_overwrite_run. destruct (valid_name k); reflexivity.
Qed.

Lemma do_override_lookup_ne (o : override) (st : proc) (key : string) :
  override_key o <> key ->
  environ (snd (do_override o st)) !! key = environ st !! key.
Proof.
  intros Hne. rewrite do_override_environ.
  destruct (valid_name (override_key o)); [|reflexivity].
  destruct o as [k|k v]; cbn [override_key] in Hne.
  - apply lookup_delete_ne. exact Hne.
  - apply lookup_insert_ne. exact Hne.
Qed.

Lemma apply_entry_lookup_spared (entry : string) (st : proc) (key : string) :
  entry_spares key entry ->
  environ (snd (apply_entry entry st)) !! key = environ st !! key.
Proof.
  intros Hsp. rewrite apply_entry_override.
  destruct (override_of entry) as [o|] eqn:Ho; [|reflexivity].
  apply do_override_lookup_ne. apply Hsp. exact Ho.
Qed.

Lemma apply_envp_lookup_spared (entries : list string) (st : proc)
    (key : string) :
  Forall (entry_spares key) entries ->
  environ (snd (apply_envp entries st)) !! key = environ st !! key.
Proof.
  intros H. revert st. induction H as [|e l He _ IH]; intros st; [reflexivity|].
  rewrite apply_envp_cons, IH. apply apply_entry_lookup_spared. exact He.
Qed.

Lemma final_binding_spared (key : string) (entries : list string)
    (init : option string) :
  Forall (entry_spares key) entries ->
  final_binding key entries init = init.
Proof. apply final_binding_other. Qed.

(** X3. A non-null [envp] is laid over the environment the child inherited,
    it does not replace it: in a child that reaches the new image, every
    variable that no entry of [envp] names, TERM apart, has at [execvp] the
    value it had in the caller, and a variable the caller did not have is
    still missing. *)
Theorem unnamed_variables_are_inherited
    (P : platform) (W : world) (file : string) (argv : list string)
    (envp : option (list string)) (working_dir : option string)
    (termios_settings : option pty_termios_t)
    (winsize_settings : option pty_winsize_t) (st : proc) (key : string) :
  w_forkpty W = ForkChild ->
  chdir_error W working_dir = None ->
  w_execvp W file argv = None ->
  key <> "" -> key <> "TERM" ->
  Forall (entry_spares key) (default [] envp) ->
  let run := pty_spawn P W file argv envp working_dir termios_settings
               winsize_settings st in
  fst run = Halt (Replaced file argv) /\
  environ (snd run) !! key = environ st !! key.
Proof.
  intros Hfork Hcd Hx Hkey Hterm Hsp run.
  destruct (pty_spawn_replaced P W file argv envp working_dir
              termios_settings winsize_settings st Hfork Hcd Hx)
    as (st' & Hrun & _ & Henv & _).
  fold run in Hrun. clearbody run. rewrite Hrun. proc_simpl.
  split; [reflexivity|].
  rewrite (Henv key Hkey), (final_binding_spared _ _ _ Hsp).
  destruct (environ st !! "TERM"); [reflexivity|].
  apply lookup_insert_ne. congruence.
Qed.

Lemma unnamed_variables_are_inherited_witness :
  environ (snd (pty_spawn linux_platform (world_of ForkChild None None)
                  "env" ["env"] (Some ["FOO=bar"; "LANG="]) None None None
                  (proc0 (<["HOME" := "/root"]> ∅)))) !! "HOME"
  = Some "/root".
Proof.
  refine (proj2 (unnamed_variables_are_inherited linux_platform
            (world_of ForkChild None None) "env" ["env"]
            (Some ["FOO=bar"; "LANG="]) None None None
            (proc0 (<["HOME" := "/root"]> ∅)) "HOME"
            eq_refl eq_refl eq_refl _ _ _)).
  - discriminate.
  - discriminate.
  - repeat constructor; intros o Ho; vm_compute in Ho; injection Ho as <-;
      discriminate.
Defined.

(** X4. An override that removes TERM wins over the default: in a child
    that reaches the new image, when the last entry of [envp] about TERM is
    ["TERM="], the new image has no TERM at all, whether the caller had one
    or the default had just been set. *)
Theorem term_unset_beats_default
    (P : platform) (W : world) (file : string) (argv : list string)
    (before after : list string) (working_dir : option string)
    (termios_settings : option pty_termios_t)
    (winsize_settings : option pty_winsize_t) (st : proc) :
  w_forkpty W = ForkChild ->
  chdir_error W working_dir = None ->
  w_execvp W file argv = None ->
  Forall (entry_spares "TERM") after ->
  let run := pty_spawn P W file argv (Some (before ++ "TERM=" :: after))
               working_dir termios_settings winsize_settings st in
  fst run = Halt (Replaced file argv) /\
  environ (snd run) !! "TERM" = None.
Proof.
  intros Hfork Hcd Hx Hsp run.
  destruct (pty_spawn_replaced P W file argv (Some (before ++ "TERM=" :: after))
              working_dir termios_settings winsize_settings st Hfork Hcd Hx)
    as (st' & Hrun & _ & Henv & _).
  fold run in Hrun. clearbody run. rewrite Hrun. proc_simpl.
  split; [reflexivity|].
  rewrite Henv by discriminate.
  change (default [] (Some (before ++ "TERM=" :: after)))
    with (before ++ "TERM=" :: after).
  rewrite final_binding_app. change ("TERM=" :: after) with (["TERM="] ++ after).
  rewrite final_binding_app, (final_binding_spared _ _ _ Hsp).
  reflexivity.
Qed.

Lemma term_unset_beats_default_witness :
  environ (snd (pty_spawn linux_platform (world_of ForkChild None None)
                  "env" ["env"] (Some (["TERM=linux"] ++ "TERM=" :: ["A=1"]))
                  None None None (proc0 ∅))) !! "TERM" = None.
Proof.
  refine (proj2 (term_unset_beats_default linux_platform
            (world_of ForkChild None None) "env" ["env"]
            ["TERM=linux"] ["A=1"] None None None (proc0 ∅)
            eq_refl eq_refl eq_refl _)).
  repeat constructor; intros o Ho; vm_compute in Ho; injection Ho as <-;
    discriminate.
Defined.

(** ** Order among the overrides *)

Lemma do_override_environ_ext (o : override) (st1 st2 : proc) :
  environ st1 = environ st2 ->
  environ (snd (do_override o st1)) = environ (snd (do_override o st2)).
Proof. intros H. rewrite !do_override_environ, H. reflexivity. Qed.

Lemma apply_entry_environ_ext (entry : string) (st1 st2 : proc) :
  environ st1 = environ st2 ->
  environ (snd (apply_entry entry st1)) = environ (snd (apply_entry entry st2)).
Proof.
  intros H. rewrite !apply_entry_override.
  destruct (override_of entry) as [o|]; [|exact H].
  apply do_override_environ_ext. exact H.
Qed.

Lemma apply_envp_environ_ext (entries : list string) (st1 st2 : proc) :
  environ st1 = environ st2 ->
  environ (snd (apply_envp entries st1)) = environ (snd (apply_envp entries st2)).
Proof.
  revert st1 st2. induction entries as [|e l IH]; intros st1 st2 H; [exact H|].
  rewrite !apply_envp_cons. apply IH, apply_entry_environ_ext, H.
Qed.

Lemma do_override_swap (o1 o2 : override) (st : proc) :
  override_key o1 <> override_key o2 ->
  environ (snd (do_override o2 (snd (do_override o1 st))))
  = environ (snd (do_override o1 (snd (do_override o2 st)))).
Proof.
  intros Hne. rewrite !do_override_environ.
  destruct (valid_name (override_key o1)), (valid_name (override_key o2));
    try reflexivity.
  destruct o1 as [k1|k1 v1], o2 as [k2|k2 v2]; cbn [override_key] in Hne.
  - apply delete_delete.
  - symmetry. apply delete_insert_ne. exact Hne.
  - apply delete_insert_ne. congruence.
  - apply insert_insert_ne. congruence.
Qed.

(** X5. Entries about different keys may trade places: swapping two
    neighbouring entries of [envp] whose keys differ (or of which one has no
    ['=']) leaves the loop with the same environment.  Together with the
    rule that the later entry wins for one key, the order of the list matters
    for nothing else. *)
Theorem overrides_of_distinct_keys_commute
    (before after : list string) (e1 e2 : string) (st : proc) :
  (forall o1 o2, override_of e1 = Some o1 -> override_of e2 = Some o2 ->
                 override_key o1 <> override_key o2) ->
  environ (snd (apply_envp (before ++ e1 :: e2 :: after) st))
  = environ (snd (apply_envp (before ++ e2 :: e1 :: after) st)).
Proof.
  intros Hne. rewrite !apply_envp_app, !apply_envp_cons.
  apply apply_envp_environ_ext. rewrite !apply_entry_override.
  destruct (override_of e1) as [o1|], (override_of e2) as [o2|];
    try reflexivity.
  apply do_override_swap. apply Hne; reflexivity.
Qed.

Lemma overrides_of_distinct_keys_commute_witness :
  environ (snd (apply_envp (["A=1"] ++ "FOO=bar" :: "LANG=" :: ["B=2"])
                  (proc0 (<["LANG" := "C"]> ∅))))
  = environ (snd (apply_envp (["A=1"] ++ "LANG=" :: "FOO=bar" :: ["B=2"])
                    (proc0 (<["LANG" := "C"]> ∅)))).
Proof.
  apply (overrides_of_distinct_keys_commute ["A=1"] ["B=2"] "FOO=bar" "LANG="
           (proc0 (<["LANG" := "C"]> ∅))).
  intros o1 o2 H1 H2. vm_compute in H1, H2.
  injection H1 as <-. injection H2 as <-. discriminate.
Defined.

(** ** Entries with an empty key *)

(** X6. An entry that begins with ['='] has the empty key.  The loop makes
    its one call for it, which libc refuses: the environment stays as it was,
    [errno] becomes [EINVAL], and the loop goes on, since the source does not
    look at the result.  The environment after the whole list is the one the
    list without that entry gives. *)
Theorem entry_with_empty_key_is_refused
    (before after : list string) (entry : string) (st : proc) :
  strchr entry "="%char = Some 0%nat ->
  fst (apply_entry entry st) = Val tt /\
  (exists c, calls (snd (apply_entry entry st)) = calls st ++ [c] /\
             (c = Cunsetenv EmptyString \/
              exists v, c = Csetenv EmptyString v 1)) /\
  environ (snd (apply_entry entry st)) = environ st /\
  errno (snd (apply_entry entry st)) = EINVAL /\
  environ (snd (apply_envp (before ++ entry :: after) st))
  = environ (snd (apply_envp (before ++ after) st)).
Proof.
  intros H0.
  assert (Hrun : forall s,
            apply_entry entry s =
            (Val tt, snd (do_override
                            (if str_null (str_drop 1 entry)
                             then Unset_key EmptyString
                             else Set_key EmptyString (str_drop 1 entry)) s))).
  { intros s. rewrite apply_entry_override. unfold override_of.
    rewrite (strchr_split _ _ H0). destruct entry; reflexivity. }
  assert (Henv : forall s, environ (snd (apply_entry entry s)) = environ s).
  { intros s. rewrite Hrun. cbn [snd]. rewrite do_override_environ.
    destruct (str_null (str_drop 1 entry)); reflexivity. }
  split; [rewrite Hrun; reflexivity|].
  split.
  { rewrite Hrun. cbn [snd]. rewrite do_override_calls.
    eexists. split; [reflexivity|].
    destruct (str_null (str_drop 1 entry)); [left; reflexivity|right; eauto]. }
  split; [apply Henv|].
  split.
  { rewrite Hrun. cbn [snd].
    destruct (str_null (str_drop 1 entry)); cbn [do_override].
    - reflexivity.
    - rewrite setenv_overwrite_run. reflexivity. }
  rewrite !apply_envp_app, apply_envp_cons.
  apply apply_envp_environ_ext, Henv.
Qed.

Lemma entry_with_empty_key_is_refused_witness :
  environ (snd (apply_envp (["A=1"] ++ "=oops" :: ["B=2"]) (proc0 ∅)))
  = environ (snd (apply_envp (["A=1"] ++ ["B=2"]) (proc0 ∅))).
Proof.
  destruct (entry_with_empty_key_is_refused ["A=1"] ["B=2"] "=oops" (proc0 ∅)
              eq_refl) as (_ & _ & _ & _ & Henv).
  exact Henv.
Defined.

(** ** The parent after the fork *)

Lemma pty_spawn_in_parent
    (P : platform) (W : world) (file : string) (argv : list string)
    (envp : option (list string)) (working_dir : option string)
    (termios_settings : option pty_termios_t)
    (winsize_settings : option pty_winsize_t) (st : proc) (c fd : Z) :
  w_forkpty W = ForkParent c fd -> 0 < c ->
  pty_spawn P W file argv envp working_dir termios_settings winsize_settings st
  = (Val {| master_fd := fd; pid := c; error := 0 |},
     set_ttys (<[fd := default (pty_default_winsize P)
                         (ws_ptr_of winsize_settings)]> (ttys st))
       (log (Cforkpty (term_ptr_of P termios_settings)
               (ws_ptr_of winsize_settings)) st)).
Proof.
  intros Hfork Hc.
  destruct (pty_spawn_branches P W file argv envp working_dir
              termios_settings winsize_settings st) as (m & st1 & Hf & ->).
  unfold forkpty in Hf. unfold forkpty_ret in *. rewrite Hfork in *.
  proc_simpl. injection Hf as <- <-.
  destruct (Z.eqb_spec c (-1)); [lia|]. destruct (Z.eqb_spec c 0); [lia|].
  reflexivity.
Qed.

(** X7. The window size given to [pty_spawn] is handed on with its four
    members, the pixel sizes included; without one the driver's default
    stands.  In the parent this is the size behind the master descriptor the
    result names, and the sizes behind all other descriptors are as before;
    in the child it is the size of the controlling terminal, whose
    attributes are the translated ones or, without [termios_settings], the
    driver's. *)
Theorem spawn_sets_window_size
    (P : platform) (W : world) (file : string) (argv : list string)
    (envp : option (list string)) (working_dir : option string)
    (termios_settings : option pty_termios_t)
    (winsize_settings : option pty_winsize_t) (st : proc) :
  let size :=
    match winsize_settings with
    | Some s => {| Sys.ws_row := ws_row s; Sys.ws_col := ws_col s;
                   Sys.ws_xpixel := ws_xpixel s; Sys.ws_ypixel := ws_ypixel s |}
    | None => pty_default_winsize P
    end in
  let run := pty_spawn P W file argv envp working_dir termios_settings
               winsize_settings st in
  (forall c fd, w_forkpty W = ForkParent c fd -> 0 < c ->
     ttys (snd run) !! fd = Some size /\
     forall fd', fd' <> fd -> ttys (snd run) !! fd' = ttys st !! fd') /\
  (w_forkpty W = ForkChild ->
   ctty (snd run) =
     Some (match termios_settings with
           | Some s => translate_termios P s
           | None => pty_default_termios P
           end, size)).
Proof.
  intros size run.
  assert (Hsize : default (pty_default_winsize P) (ws_ptr_of winsize_settings)
                  = size) by (destruct winsize_settings; reflexivity).
  assert (Hattr : default (pty_default_termios P)
                    (term_ptr_of P termios_settings)
                  = match termios_settings with
                    | Some s => translate_termios P s
                    | None => pty_default_termios P
                    end) by (destruct termios_settings; reflexivity).
  split.
  - intros c fd Hfork Hc. subst run.
    rewrite (pty_spawn_in_parent P W file argv envp working_dir
               termios_settings winsize_settings st c fd Hfork Hc).
    proc_simpl. rewrite Hsize.
    split; [apply lookup_insert_eq|].
    intros fd' Hne. apply lookup_insert_ne. congruence.
  - intros Hfork. subst run.
    rewrite (pty_spawn_child_ctty P W file argv envp working_dir
               termios_settings winsize_settings st Hfork), Hsize, Hattr.
    reflexivity.
Qed.

Lemma spawn_sets_window_size_witness :
  ttys (snd (pty_spawn linux_platform (world_of (ForkParent 4242 5) None None)
               "sh" ["sh"] None None None
               (Some {| ws_row := 40; ws_col := 132;
                        ws_xpixel := 1056; ws_ypixel := 640 |})
               (proc0 ∅))) !! 5
  = Some {| Sys.ws_row := 40; Sys.ws_col := 132;
            Sys.ws_xpixel := 1056; Sys.ws_ypixel := 640 |}.
Proof.
  refine (proj1 (proj1 (spawn_sets_window_size linux_platform
            (world_of (ForkParent 4242 5) None None) "sh" ["sh"] None None None
            (Some {| ws_row := 40; ws_col := 132;
                     ws_xpixel := 1056; ws_ypixel := 640 |})
            (proc0 ∅)) 4242 5 eq_refl _)).
  lia.
Defined.



(** ** A failed spawn *)

(** X9. When [forkpty] fails with [e], [pty_get_errno] called next yields
    [e], the code the result carries in [error], and reading it changes
    nothing.  The failed call has opened no descriptor and attached no
    terminal, and [pty_resize] on the descriptor of the result, -1, fails
    without changing a size. *)
Theorem failed_spawn_reports_errno
    (P : platform) (W : world) (file : string) (argv : list string)
    (envp : option (list string)) (working_dir : option string)
    (termios_settings : option pty_termios_t)
    (winsize_settings : option pty_winsize_t) (st : proc)
    (e rows cols : Z) :
  w_forkpty W = ForkFailed e ->
  ttys st !! (-1) = None ->
  let spawned := pty_spawn P W file argv envp working_dir termios_settings
                   winsize_settings st in
  (exists r, fst spawned = Val r /\ error r = e /\
             pty_get_errno (snd spawned) = (Val (error r), snd spawned) /\
             fst (pty_resize W (master_fd r) rows cols (snd spawned))
             = Val (-1) /\
             ttys (snd (pty_resize W (master_fd r) rows cols (snd spawned)))
             = ttys st) /\
  ttys (snd spawned) = ttys st /\
  ctty (snd spawned) = ctty st.
Proof.
  intros Hfork Hclosed spawned.
  destruct (pty_spawn_branches P W file argv envp working_dir
              termios_settings winsize_settings st) as (m & st1 & Hf & Hrun).
  fold spawned in Hrun. clearbody spawned.
  unfold forkpty in Hf. unfold forkpty_ret in *. rewrite Hfork in *.
  proc_simpl. injection Hf as <- <-.
  change (-1 =? -1) with true in Hrun. cbv iota in Hrun. rewrite Hrun.
  proc_simpl. split; [|split; reflexivity].
  eexists. split; [reflexivity|]. cbn [error master_fd].
  split; [reflexivity|]. split; [reflexivity|].
  unfold pty_resize, ioctl_TIOCSWINSZ. proc_simpl. rewrite Hclosed.
  split; reflexivity.
Qed.

Lemma failed_spawn_reports_errno_witness :
  pty_get_errno
    (snd (pty_spawn linux_platform (world_of (ForkFailed 12) None None)
            "sh" ["sh"] None None None None (proc0 ∅)))
  = (Val 12,
     snd (pty_spawn linux_platform (world_of (ForkFailed 12) None None)
            "sh" ["sh"] None None None None (proc0 ∅))).
Proof.
  destruct (failed_spawn_reports_errno linux_platform
              (world_of (ForkFailed 12) None None) "sh" ["sh"] None None None
              None (proc0 ∅) 12 24 80 eq_refl eq_refl)
    as [(r & Hr & He & Hget & _) _].
  rewrite Hget, He. reflexivity.
Defined.

(** ** The attributes on a platform with plain speed setters *)

(** X10. Where the speed setters only store the speed, the structure handed
    to [forkpty] holds what the caller gave: the four flag words, the two
    speeds, and for the control characters the caller's array cut to [NCCS]
    entries or, if [NCCS] is larger than 32, followed by zeros up to [NCCS];
    with [NCCS = 32] the array arrives whole.  [c_line] is 0. *)
Theorem termios_round_trip (P : platform) (s : pty_termios_t) :
  setters_store_speed P ->
  length (c_cc s) = PTY_CC_LEN ->
  translate_termios P s =
    {| Sys.c_iflag := c_iflag s; Sys.c_oflag := c_oflag s;
       Sys.c_cflag := c_cflag s; Sys.c_lflag := c_lflag s;
       Sys.c_line := 0;
       Sys.c_cc := take (NCCS P) (c_cc s) ++ replicate (NCCS P - 32) 0;
       Sys.c_ispeed := c_ispeed s; Sys.c_ospeed := c_ospeed s |} /\
  (NCCS P = 32%nat -> Sys.c_cc (translate_termios P s) = c_cc s).
Proof.
  intros Hstore Hlen.
  assert (Hcc : take (cc_copied P) (c_cc s) ++ replicate (NCCS P - cc_copied P) 0
                = take (NCCS P) (c_cc s) ++ replicate (NCCS P - 32) 0).
  { unfold cc_copied, PTY_CC_LEN in *.
    destruct (Nat.le_ge_cases (NCCS P) 32) as [Hle|Hge].
    - rewrite Nat.min_r by exact Hle.
      replace (NCCS P - NCCS P)%nat with 0%nat by lia.
      replace (NCCS P - 32)%nat with 0%nat by lia. reflexivity.
    - rewrite Nat.min_l by exact Hge.
      rewrite !take_ge by (rewrite Hlen; lia). reflexivity. }
  assert (Heq : translate_termios P s =
    {| Sys.c_iflag := c_iflag s; Sys.c_oflag := c_oflag s;
       Sys.c_cflag := c_cflag s; Sys.c_lflag := c_lflag s;
       Sys.c_line := 0;
       Sys.c_cc := take (NCCS P) (c_cc s) ++ replicate (NCCS P - 32) 0;
       Sys.c_ispeed := c_ispeed s; Sys.c_ospeed := c_ospeed s |}).
  { rewrite translate_termios_spec.
    destruct (Hstore (term_before_speeds P s) (c_ispeed s)) as [-> _].
    destruct (Hstore (Sys.set_c_ispeed (c_ispeed s) (term_before_speeds P s))
                (c_ospeed s)) as [_ ->].
    unfold term_before_speeds, Sys.set_c_ospeed, Sys.set_c_ispeed.
    cbn [Sys.c_iflag Sys.c_oflag Sys.c_cflag Sys.c_lflag Sys.c_line Sys.c_cc
         Sys.c_ispeed Sys.c_ospeed].
    rewrite Hcc. reflexivity. }
  split; [exact Heq|].
  intros H32. rewrite Heq. cbn [Sys.c_cc]. rewrite H32.
  rewrite take_ge by (rewrite Hlen; unfold PTY_CC_LEN; lia).
  apply app_nil_r.
Qed.

Lemma termios_round_trip_witness :
  translate_termios (bsd_platform 20) sample_termios =
    {| Sys.c_iflag := 17664; Sys.c_oflag := 5; Sys.c_cflag := 191;
       Sys.c_lflag := 35387; Sys.c_line := 0;
       Sys.c_cc := map Z.of_nat (seq 1 20);
       Sys.c_ispeed := 15; Sys.c_ospeed := 15 |} /\
  Sys.c_cc (translate_termios (bsd_platform 32) sample_termios)
  = c_cc sample_termios.
Proof.
  split.
  - refine (proj1 (termios_round_trip (bsd_platform 20) sample_termios _ eq_refl)).
    intros t v. split; reflexivity.
  - refine (proj2 (termios_round_trip (bsd_platform 32) sample_termios _ eq_refl)
              eq_refl).
    intros t v. split; reflexivity.
Defined.

(** ** One fork *)


(** ** The directory of the new image *)

(** X12. The new image starts in [working_dir] when one is given, is not
    empty and [chdir] to it succeeds, and in the caller's directory when
    [working_dir] is NULL or empty.  A child whose [chdir] fails ends in the
    directory it started in. *)
Theorem new_image_directory
    (P : platform) (W : world) (file : string) (argv : list string)
    (envp : option (list string)) (working_dir : option string)
    (termios_settings : option pty_termios_t)
    (winsize_settings : option pty_winsize_t) (st : proc) :
  w_forkpty W = ForkChild ->
  let run := pty_spawn P W file argv envp working_dir termios_settings
               winsize_settings st in
  (chdir_error W working_dir = None -> w_execvp W file argv = None ->
   fst run = Halt (Replaced file argv) /\
   cwd (snd run) = match working_dir with
                   | Some dir => if str_null dir then cwd st else dir
                   | None => cwd st
                   end) /\
  (forall e, chdir_error W working_dir = Some e ->
     fst run = Halt (Exited e) /\ cwd (snd run) = cwd st).
Proof.
  intros Hfork run. split.
  - intros Hcd Hx.
    destruct (pty_spawn_replaced P W file argv envp working_dir
                termios_settings winsize_settings st Hfork Hcd Hx)
      as (st' & Hrun & _ & _ & Hcwd & _).
    fold run in Hrun. clearbody run. rewrite Hrun. proc_simpl.
    split; [reflexivity|]. rewrite Hcwd. unfold chdir_request.
    destruct working_dir as [dir|]; [|reflexivity].
    destruct (str_null dir); reflexivity.
  - intros e Hcd.
    destruct (pty_spawn_in_child P W file argv envp working_dir termios_settings
                winsize_settings st Hfork) as (st1 & Hrun & _ & _ & Hcwd1 & _).
    fold run in Hrun. clearbody run. rewrite Hrun. unfold child, bind.
    pose proof (child_setup_run W envp working_dir st1) as Hsetup.
    rewrite Hcd in Hsetup.
    destruct Hsetup as (dir & st' & _ & -> & _ & _ & Hcwd & _).
    proc_simpl. split; [reflexivity|]. rewrite Hcwd. exact Hcwd1.
Qed.

Lemma new_image_directory_witness :
  cwd (snd (pty_spawn linux_platform (world_of ForkChild None None)
              "sh" ["sh"] None (Some "/srv") None None (proc0 ∅))) = "/srv" /\
  cwd (snd (pty_spawn linux_platform (world_of ForkChild (Some 2) None)
              "sh" ["sh"] None (Some "/nowhere") None None (proc0 ∅))) = "/".
Proof.
  split.
  - exact (proj2 (proj1 (new_image_directory linux_platform
             (world_of ForkChild None None) "sh" ["sh"] None (Some "/srv")
             None None (proc0 ∅) eq_refl) eq_refl eq_refl)).
  - exact (proj2 (proj2 (new_image_directory linux_platform
             (world_of ForkChild (Some 2) None) "sh" ["sh"] None
             (Some "/nowhere") None None (proc0 ∅) eq_refl) 2 eq_refl)).
Defined.
